(** * ImageTech_tools: extract_subject_info.py and reconstruct_MEG.py

    A shallow embedding of the two scripts and the properties of their
    demographic extraction, participants-table merge, subject-ID
    normalisation, filename parsing and raw-copy step.

    Text model.  A Python [str] is a Rocq [string]; one [ascii] is one
    UTF-8 code unit.  Every character the scripts inspect ('-', '_', '.',
    tab, quote, CR, LF, letters and digits) is ASCII, and ASCII bytes never
    occur inside a multi-byte UTF-8 sequence, so scanning code units agrees
    with scanning code points.  [upper]/[lower] change ASCII letters only;
    characters outside ASCII are left as they are.

    Library model.  The standard library is the one of Python 3.11.  The
    digits and the white space of [int()], and the digits of the date
    format, are the ASCII ones; the cap on the number of digits [int()]
    takes (4300) and the cap on the size of a field the csv reader takes
    (131072 characters) are left out.  pydicom, mne and mne_bids are known
    only by what they hand to the scripts: a data set is the finite map of
    its decoded elements, and loading or writing a recording succeeds or
    fails as the environment decides. *)

From Stdlib Require Import ZArith Ascii String List Bool Lia.
From Stdlib Require Import DecimalString DecimalN DecimalFacts.
From stdpp Require Import base option list gmap strings.

Set Warnings "-register-all".

Local Open Scope Z_scope.

(* ===================================================================== *)
(** ** Python string operations *)
(* ===================================================================== *)

Module Py.

Definition is_lower_c (c : ascii) : bool :=
  (97 <=? N_of_ascii c)%N && (N_of_ascii c <=? 122)%N.
Definition is_upper_c (c : ascii) : bool :=
  (65 <=? N_of_ascii c)%N && (N_of_ascii c <=? 90)%N.
Definition is_digit_c (c : ascii) : bool :=
  (48 <=? N_of_ascii c)%N && (N_of_ascii c <=? 57)%N.
Definition is_alpha_lower_c := is_lower_c.
Definition is_alnum_lower_c (c : ascii) : bool := is_lower_c c || is_digit_c c.

(** The separators of the scripts' character class [[-_]]. *)
Definition is_sep_c (c : ascii) : bool :=
  Ascii.eqb c "-" || Ascii.eqb c "_".

Definition upper_c (c : ascii) : ascii :=
  if is_lower_c c then ascii_of_N (N_of_ascii c - 32) else c.
Definition lower_c (c : ascii) : ascii :=
  if is_upper_c c then ascii_of_N (N_of_ascii c + 32) else c.

Fixpoint map_str (f : ascii → ascii) (s : string) : string :=
  match s with
  | EmptyString => EmptyString
  | String c s' => String (f c) (map_str f s')
  end.

(** [s.upper()] and [s.lower()]. *)
Definition upper : string → string := map_str upper_c.
Definition lower : string → string := map_str lower_c.

Fixpoint filter_str (p : ascii → bool) (s : string) : string :=
  match s with
  | EmptyString => EmptyString
  | String c s' => if p c then String c (filter_str p s') else filter_str p s'
  end.

Fixpoint forall_str (p : ascii → bool) (s : string) : bool :=
  match s with
  | EmptyString => true
  | String c s' => p c && forall_str p s'
  end.

(** [s[n:]] and [s[:n]] for [0 <= n]. *)
Fixpoint drop_str (n : nat) (s : string) : string :=
  match n, s with
  | O, _ => s
  | S n', String _ s' => drop_str n' s'
  | S _, EmptyString => EmptyString
  end.
Fixpoint take_str (n : nat) (s : string) : string :=
  match n, s with
  | S n', String c s' => String c (take_str n' s')
  | _, _ => EmptyString
  end.

(** [s.endswith(p)]. *)
Definition endswith (p s : string) : bool :=
  (String.length p <=? String.length s)%nat &&
  String.eqb (drop_str (String.length s - String.length p) s) p.

(** [needle in hay]. *)
Fixpoint contains (needle hay : string) : bool :=
  String.prefix needle hay ||
  match hay with
  | EmptyString => false
  | String _ hay' => contains needle hay'
  end.

(** [s.replace(old, new)]: every non-overlapping occurrence, leftmost
    first.  [skip] counts the characters of the occurrence just replaced
    that are still to be passed over. *)
Fixpoint replace_go (old new : string) (skip : nat) (s : string) : string :=
  match s with
  | EmptyString => EmptyString
  | String c s' =>
      match skip with
      | S k => replace_go old new k s'
      | O =>
          if String.prefix old s
          then new +:+ replace_go old new (String.length old - 1) s'
          else String c (replace_go old new 0 s')
      end
  end.

Fixpoint intersperse_str (new s : string) : string :=
  match s with
  | EmptyString => new
  | String c s' => new +:+ String c (intersperse_str new s')
  end.

Definition replace (old new s : string) : string :=
  match old with
  | EmptyString => intersperse_str new s
  | _ => replace_go old new 0 s
  end.

(** [s.rfind(c)] for a single character, [None] for -1. *)
Fixpoint rfind_c (c : ascii) (s : string) : option nat :=
  match s with
  | EmptyString => None
  | String d s' =>
      match rfind_c c s' with
      | Some i => Some (S i)
      | None => if Ascii.eqb d c then Some O else None
      end
  end.

(** [str(z)] for a Python [int]: decimal digits, most significant first,
    with a minus sign for a negative number. *)
Definition str_N (n : N) : string := NilEmpty.string_of_uint (N.to_uint n).

Definition str_int (z : Z) : string :=
  if z <? 0 then String "-" (str_N (Z.to_N (- z))) else str_N (Z.to_N z).

Definition digit_val (c : ascii) : option N :=
  if is_digit_c c then Some (N_of_ascii c - 48)%N else None.

(** [int(s)] for a [str].

    Surrounding white space is dropped, one sign is allowed, and single
    underscores may separate digits. *)

Definition is_space_c (c : ascii) : bool :=
  let n := N_of_ascii c in
  ((9 <=? n) && (n <=? 13) || (n =? 32))%N.

Fixpoint lstrip (s : string) : string :=
  match s with
  | String c s' => if is_space_c c then lstrip s' else s
  | EmptyString => EmptyString
  end.
Fixpoint rstrip (s : string) : string :=
  match s with
  | EmptyString => EmptyString
  | String c s' =>
      match rstrip s' with
      | EmptyString => if is_space_c c then EmptyString else String c EmptyString
      | r => String c r
      end
  end.
Definition strip (s : string) : string := lstrip (rstrip s).

(** Digits with single underscores between them; [prev] tells whether the
    previous character was a digit. *)
Fixpoint digits_us (acc : N) (prev : bool) (s : string) : option N :=
  match s with
  | EmptyString => if prev then Some acc else None
  | String c s' =>
      if Ascii.eqb c "_" then
        if prev then digits_us acc false s' else None
      else
        match digit_val c with
        | Some d => digits_us (10 * acc + d) true s'
        | None => None
        end
  end.

Definition py_int (s : string) : option Z :=
  match strip s with
  | String "-" r => (λ n, - Z.of_N n) <$> digits_us 0 false r
  | String "+" r => Z.of_N <$> digits_us 0 false r
  | t => Z.of_N <$> digits_us 0 false t
  end.

(** The number a string of decimal digits stands for. *)
Fixpoint decimal_go (acc : N) (s : string) : N :=
  match s with
  | EmptyString => acc
  | String c s' => decimal_go (10 * acc + (N_of_ascii c - 48)) s'
  end.
Definition decimal (s : string) : N := decimal_go 0 s.

End Py.

(* ===================================================================== *)
(** ** A backtracking regular-expression matcher

    [re.match] explores alternatives in priority order (left branch of an
    alternative first, greedy repetition longest first) and returns the
    first way the whole pattern matches a prefix of the subject.  [run]
    lists all the ways in that order; the head of the list is what
    [re.match] returns. *)
(* ===================================================================== *)

Module Re.

Inductive re : Type :=
| Eps
| Chr (p : ascii → bool)          (* one character of a class *)
| Seq (r1 r2 : re)
| Alt (r1 r2 : re)                (* r1|r2 *)
| Opt (r : re)                    (* r?  greedy *)
| Star (p : ascii → bool)         (* [class]*  greedy *)
| Group (n : nat) (r : re).       (* capturing group number n *)

Definition Plus (p : ascii → bool) : re := Seq (Chr p) (Star p).
Definition Lit_c (c : ascii) : re := Chr (Ascii.eqb c).
Fixpoint Lit (s : string) : re :=
  match s with
  | EmptyString => Eps
  | String c s' => Seq (Lit_c c) (Lit s')
  end.

Definition caps := list (nat * string).

(** All suffixes left after matching [class]* against a prefix of [s],
    longest match first. *)
Fixpoint star_rests (p : ascii → bool) (s : string) : list string :=
  match s with
  | EmptyString => [s]
  | String c s' => if p c then star_rests p s' ++ [s] else [s]
  end.

Fixpoint run (r : re) (s : string) (cs : caps) : list (string * caps) :=
  match r with
  | Eps => [(s, cs)]
  | Chr p =>
      match s with
      | String c s' => if p c then [(s', cs)] else []
      | EmptyString => []
      end
  | Seq r1 r2 => flat_map (λ x, run r2 (fst x) (snd x)) (run r1 s cs)
  | Alt r1 r2 => run r1 s cs ++ run r2 s cs
  | Opt r1 => run r1 s cs ++ [(s, cs)]
  | Star p => map (λ s', (s', cs)) (star_rests p s)
  | Group n r1 =>
      map (λ x, (fst x,
                 (n, Py.take_str (String.length s - String.length (fst x)) s)
                   :: snd x))
          (run r1 s cs)
  end.

(** [m.group(n)]: the text last captured by group [n]. *)
Fixpoint group (n : nat) (cs : caps) : string :=
  match cs with
  | [] => ""
  | (k, v) :: cs' => if Nat.eqb k n then v else group n cs'
  end.

(** [re.match(r, s)]: the captures and the unmatched rest, or [None]. *)
Definition rmatch (r : re) (s : string) : option (string * caps) :=
  head (run r s []).

(** The next character of [s], if there is one, is not of the class. *)
Definition not_starts (p : ascii → bool) (s : string) : Prop :=
  match s with
  | EmptyString => True
  | String c _ => p c = false
  end.

End Re.

(* ===================================================================== *)
(** ** reconstruct_MEG.py *)
(* ===================================================================== *)

Module ReconstructMEG.
Import Py Re.

(** *** Subject-ID normalisation (lines 63-73 and line 135) *)

(** [re.sub(r'^sub[-_]', '', s, flags=re.I)]: at most one match, at the
    start of the string. *)
Definition strip_sub_prefix (s : string) : string :=
  match s with
  | String a (String b (String c (String d rest))) =>
      if Ascii.eqb (lower_c a) "s" && Ascii.eqb (lower_c b) "u" &&
         Ascii.eqb (lower_c c) "b" && is_sep_c d
      then rest else s
  | _ => s
  end.

(** [re.sub(r'[-_]', '', s)]. *)
Definition remove_seps (s : string) : string :=
  filter_str (λ c, negb (is_sep_c c)) s.

Definition normalize_subject_id (subj_id : string) : string :=
  let subj := strip_sub_prefix subj_id in
  upper (remove_seps subj).

(** Line 135:
    [subject_dir.name.replace('_', '').replace('sub-', '').replace('sub_', '').upper()]. *)
Definition copy_subject_id (dir_name : string) : string :=
  upper (replace "sub_" "" (replace "sub-" "" (replace "_" "" dir_name))).

(** *** The subject directory that is read *)

Inductive node : Type :=
| File (data : string)
| Dir (entries : list (string * node)).

Definition is_file (n : node) : bool :=
  match n with File _ => true | Dir _ => false end.

(** [PurePath.suffix] and [PurePath.stem] of a final path component. *)
Definition suffix (name : string) : string :=
  match rfind_c "." name with
  | Some i =>
      if (0 <? i)%nat && (i <? String.length name - 1)%nat
      then drop_str i name else ""
  | None => ""
  end.
Definition stem (name : string) : string :=
  match rfind_c "." name with
  | Some i =>
      if (0 <? i)%nat && (i <? String.length name - 1)%nat
      then take_str i name else name
  | None => name
  end.

(** *** Diagnostics written to standard output *)

Inductive msg : Type :=
| Usage
| NotADirectory
| CheckingSubject (subject : string)
| CheckingSession (session : string)
| ExpectedSubjectId (expected : string)
| UnexpectedSubjectId (file expected : string)        (* log_error *)
| FileOK (file : string)
| SkippingSubject (subject session : string)          (* log_error *)
| SubjectSkipped (subject : string)
| FoundSession (session_id : string)
| NoFifFiles (session session_id : string)            (* log_error *)
| CopiedRaw (dir : string)
| ProcessingFile (file : string)
| LoadedFile
| FailedToLoad (file : string)                        (* log_error *)
| CouldNotParse (file : string)                       (* log_error *)
| UsingBidsPath
| ConversionComplete
| FailedToWrite                                       (* log_error *)
| NotConverted (files : list string)
| MovedContents (meg_folder : string)
| RunningExtract (subject_id session_id : string)
| ExtractFailed                                       (* log_error *)
| AllProcessed.

(** *** Filename validation (lines 75-92) *)

(** The test of line 84: the entry is a file whose last suffix, lower-cased,
    is in [[".fif", ".fif.gz"]].  The last suffix holds one dot, so it is
    never ".fif.gz": the files that are checked are those named *.fif. *)
Definition is_checked_file (name : string) (n : node) : bool :=
  is_file n &&
  (String.eqb (lower (suffix name)) ".fif" ||
   String.eqb (lower (suffix name)) ".fif.gz").

(** The test of line 86, negated: the expected ID occurs in the stem. *)
Definition id_in_stem (expected name : string) : bool :=
  contains (upper expected) (upper (stem name)).

Fixpoint check_files (expected : string) (entries : list (string * node))
  : bool * list msg :=
  match entries with
  | [] => (false, [])
  | (name, n) :: rest =>
      if is_checked_file name n then
        if negb (id_in_stem expected name)
        then (true, [UnexpectedSubjectId name expected])
        else let r := check_files expected rest in
             (fst r, FileOK name :: snd r)
      else check_files expected rest
  end.

Definition subject_has_invalid_files
    (session_name : string) (session_entries : list (string * node))
    (subject_dir : string) : bool * list msg :=
  let expected_sub_id := normalize_subject_id subject_dir in
  let r := check_files expected_sub_id session_entries in
  (fst r, CheckingSession session_name :: ExpectedSubjectId expected_sub_id :: snd r).

(** The pre-check loop of lines 94-102 over the entries of the subject
    directory, in iteration order. *)
Fixpoint precheck (subject : string) (entries : list (string * node))
  : bool * list msg :=
  match entries with
  | [] => (false, [])
  | (name, Dir es) :: rest =>
      let r := subject_has_invalid_files name es subject in
      if fst r
      then (true, snd r ++ [SkippingSubject subject name])
      else let r' := precheck subject rest in (fst r', snd r ++ snd r')
  | (_, File _) :: rest => precheck subject rest
  end.

(** *** Filename parsing (lines 166-187) *)

(** The pattern of line 171, spelled with spaces between its parts:
    [^ (?: sub [-_]? )? ( [a-z0-9]+ ) [-_] ( [a-z]+ [0-9]* ) [_-] raw]. *)
Definition pattern : re :=
  Seq (Opt (Seq (Lit "sub") (Opt (Chr is_sep_c))))
 (Seq (Group 1 (Plus is_alnum_lower_c))
 (Seq (Chr is_sep_c)
 (Seq (Group 2 (Seq (Plus is_alpha_lower_c) (Star is_digit_c)))
 (Seq (Chr is_sep_c)
      (Lit "raw"))))).

(** The pattern of line 181: [( [a-z]+ ) ( \d* )]. *)
Definition task_pattern : re :=
  Seq (Group 1 (Plus is_alpha_lower_c)) (Group 2 (Star is_digit_c)).

(** Line 167: [raw_meg.name.lower().replace('.fif', '').replace('.fif.gz', '')]. *)
Definition fname_of (name : string) : string :=
  replace ".fif.gz" "" (replace ".fif" "" (lower name)).

(** Lines 171-178: the subject token, upper-cased, and the task+run token. *)
Definition match_fname (fname : string) : option (string * string) :=
  match rmatch pattern fname with
  | Some (_, m) => Some (upper (group 1 m), group 2 m)
  | None => None
  end.
Definition match_filename (name : string) : option (string * string) :=
  match_fname (fname_of name).

(** Lines 181-187: the task and the optional run. *)
Definition split_task_run (task_run_str : string) : option (string * option Z) :=
  match rmatch task_pattern task_run_str with
  | Some (_, m_task) =>
      Some (group 1 m_task,
            if String.eqb (group 2 m_task) "" then None
            else py_int (group 2 m_task))
  | None => None
  end.

Record parsed := { p_subject : string; p_task : string; p_run : option Z }.

(** Lines 171-187 for the lower-cased, extension-stripped name: [None]
    when the file is skipped. *)
Definition parse_fname (fname : string) : option parsed :=
  match match_fname fname with
  | Some (subject_id, task_run_str) =>
      match split_task_run task_run_str with
      | Some (task, run) =>
          Some {| p_subject := subject_id; p_task := task; p_run := run |}
      | None => None
      end
  | None => None
  end.
Definition parse_filename (name : string) : option parsed :=
  parse_fname (fname_of name).

(** *** The project tree that is written

    The storage tree under /data/storage is a finite map from path
    strings to what is found there.  A directory is recorded at its own
    path; the script never asks whether an ancestor of a path exists. *)

Inductive fnode : Type :=
| FFile (data : string)
| FDir.

Definition path_join (dir name : string) : string := dir +:+ "/" +:+ name.

(** [p] lies strictly below directory [d]. *)
Definition under (d p : string) : bool := String.prefix (d +:+ "/") p.

(** [Path.mkdir(parents=True, exist_ok=True)]: [None] is FileExistsError. *)
Definition mkdir_p (p : string) (fs : gmap string fnode)
  : option (gmap string fnode) :=
  match fs !! p with
  | Some (FFile _) => None
  | _ => Some (<[p := FDir]> fs)
  end.

(** Lines 140-144 for one entry of the session folder. *)
Definition copy_item (raw_subj_ses_dir : string)
    (fs : gmap string fnode) (item : string * node) : gmap string fnode :=
  match item with
  | (name, File data) =>
      let dest := path_join raw_subj_ses_dir name in
      match fs !! dest with
      | None => <[dest := FFile data]> fs        (* shutil.copy2(item, dest) *)
      | Some _ => fs
      end
  | (_, Dir _) => fs
  end.

(** The copy loop of lines 139-145. *)
Definition copy_files (raw_subj_ses_dir : string)
    (items : list (string * node)) (fs : gmap string fnode)
  : gmap string fnode :=
  foldl (copy_item raw_subj_ses_dir) fs items.

(** [shutil.rmtree(d)]. *)
Definition rmtree (d : string) (fs : gmap string fnode) : gmap string fnode :=
  filter (λ kv, ¬ (kv.1 = d ∨ under d kv.1 = true)) fs.

(** The names of the entries of directory [d]. *)
Definition child_name (d p : string) : option string :=
  if under d p then
    let r := drop_str (String.length d + 1) p in
    if contains "/" r then None else Some r
  else None.
Definition iterdir (d : string) (fs : gmap string fnode) : list string :=
  omap (λ kv, child_name d kv.1) (map_to_list fs).

(** [shutil.move(src, dst)] when nothing exists at [dst]: a rename of
    [src] and of everything below it; [None] when [src] does not exist. *)
Definition rekey (src dst p : string) : string :=
  if String.eqb p src || under src p
  then dst +:+ drop_str (String.length src) p else p.
Definition move (src dst : string) (fs : gmap string fnode)
  : option (gmap string fnode) :=
  match fs !! src with
  | None => None
  | Some _ =>
      Some (list_to_map (map (λ kv, (rekey src dst kv.1, kv.2)) (map_to_list fs)))
  end.

(** *** Calls that leave the script *)

Record BIDSPath := {
  bp_subject : string;
  bp_session : string;
  bp_task : string;
  bp_run : option Z;
  bp_root : string
}.

Inductive call : Type :=
| PipInstall (package : string)
| WriteRawBids (file : string) (bids_path : BIDSPath)
| RunExtract (cmd : list string).

(** The state of a run: the project tree, the external calls made and the
    diagnostics printed (both oldest first), and the module-level list
    [failed_bids_files]. *)
Record state := {
  fs : gmap string fnode;
  calls : list call;
  out : list msg;
  failed_bids_files : list string
}.

Definition say (m : msg) (st : state) : state :=
  {| fs := fs st; calls := calls st; out := out st ++ [m];
     failed_bids_files := failed_bids_files st |}.
Definition says (ms : list msg) (st : state) : state :=
  {| fs := fs st; calls := calls st; out := out st ++ ms;
     failed_bids_files := failed_bids_files st |}.
Definition called (c : call) (st : state) : state :=
  {| fs := fs st; calls := calls st ++ [c]; out := out st;
     failed_bids_files := failed_bids_files st |}.
Definition with_fs (f : gmap string fnode) (st : state) : state :=
  {| fs := f; calls := calls st; out := out st;
     failed_bids_files := failed_bids_files st |}.
Definition failed (name : string) (st : state) : state :=
  {| fs := fs st; calls := calls st; out := out st;
     failed_bids_files := failed_bids_files st ++ [name] |}.

(** A step either goes on or stops with an uncaught exception. *)
Inductive res : Type :=
| Ok (st : state)
| Raise (st : state).

Definition bind (r : res) (k : state → res) : res :=
  match r with
  | Ok st => k st
  | Raise st => Raise st
  end.
Notation "'do' st <- r ; k" := (bind r (λ st, k))
  (at level 10, st name, r at level 99, k at level 200).

Inductive outcome : Type :=
| Completed                (* fell off the end of the script *)
| Exited (code : Z)        (* sys.exit(code) *)
| Uncaught.                (* an exception reached the top level *)

Definition TAB : string := String "009" "".
Definition LF : string := String "010" "".

Definition header_line : string :=
  "participant_id" +:+ TAB +:+ "session_id" +:+ TAB +:+ "sex" +:+ TAB +:+
  "weight" +:+ TAB +:+ "age" +:+ LF.

Section Script.

(** What the environment decides. *)
Variable find_spec : string → bool.
  (* importlib.util.find_spec(package) is not None *)
Variable pip_install : string → bool.
  (* the pip subprocess exits with status 0 *)
Variable read_raw_fif : string → node → bool.
  (* mne.io.read_raw_fif returns without an exception *)
Variable write_raw_bids :
  string → node → BIDSPath → gmap string fnode → gmap string fnode * bool.
  (* the tree left by mne_bids.write_raw_bids, and whether it returned
     without an exception *)
Variable extract_subject_info :
  list string → gmap string fnode → gmap string fnode * bool.
  (* the tree left by the subprocess, and whether it exited with 0 *)

(** Lines 35-39. *)
Definition install_if_missing (package_name : string) (st : state) : res :=
  if find_spec package_name then Ok st
  else
    let st := called (PipInstall package_name) st in
    if pip_install package_name then Ok st else Raise st.

(** [session_folder.glob("*.fif")]. *)
Definition glob_fif (entries : list (string * node)) : list (string * node) :=
  List.filter (λ e, endswith ".fif" (fst e)) entries.

(** The body of the conversion loop, lines 150-213, for one file; the
    first component is the variable [subject_id]. *)
Definition convert_file (session_id reconstructed_path : string)
    (acc : string * state) (raw_meg : string * node) : string * state :=
  let '(subject_id, st) := acc in
  let '(name, n) := raw_meg in
  let st := say (ProcessingFile name) st in
  if negb (read_raw_fif name n) then (subject_id, say (FailedToLoad name) st)
  else
    let st := say LoadedFile st in
    match match_filename name with
    | None => (subject_id, say (CouldNotParse name) st)
    | Some (subject_id, task_run_str) =>
        match split_task_run task_run_str with
        | None => (subject_id, say (CouldNotParse name) st)
        | Some (task, run) =>
            let bids_path :=
              {| bp_subject := subject_id; bp_session := session_id;
                 bp_task := task; bp_run := run;
                 bp_root := reconstructed_path |} in
            let st := say UsingBidsPath st in
            let st := called (WriteRawBids name bids_path) st in
            let '(fs', ok) := write_raw_bids name n bids_path (fs st) in
            let st := with_fs fs' st in
            if ok then (subject_id, say ConversionComplete st)
            else (subject_id, failed name (say FailedToWrite st))
        end
    end.

(** Lines 148-219. *)
Definition convert (do_bids : bool) (session_id reconstructed_path : string)
    (meg_files : list (string * node)) (subject_id : string) (st : state)
  : string * state :=
  if do_bids then
    let '(subject_id, st) :=
      foldl (convert_file session_id reconstructed_path)
            (subject_id, st) meg_files in
    match failed_bids_files st with
    | [] => (subject_id, st)
    | fl => (subject_id, say (NotConverted fl) st)
    end
  else (subject_id, st).

(** Lines 226-236 for one entry of the meg folder. *)
Definition relocate_entry (subject_bids_dir meg_folder : string)
    (acc : option (gmap string fnode)) (name : string)
  : option (gmap string fnode) :=
  match acc with
  | None => None
  | Some fs0 =>
      let f := path_join meg_folder name in
      let dest := path_join subject_bids_dir name in
      let fs1 :=
        match fs0 !! dest with
        | Some FDir => rmtree dest fs0
        | Some (FFile _) => delete dest fs0
        | None => fs0
        end in
      move f dest fs1
  end.

(** Lines 221-239. *)
Definition relocate (subject_bids_dir : string) (st : state) : res :=
  let meg_folder := path_join subject_bids_dir "meg" in
  match fs st !! meg_folder with
  | None => Ok st
  | Some (FFile _) => Raise st                       (* NotADirectoryError *)
  | Some FDir =>
      match foldl (relocate_entry subject_bids_dir meg_folder)
                  (Some (fs st)) (iterdir meg_folder (fs st)) with
      | None => Raise st                             (* FileNotFoundError *)
      | Some fs' =>
          Ok (say (MovedContents meg_folder) (with_fs (rmtree meg_folder fs') st))
      end
  end.

(** The command of lines 250-259. *)
Definition extract_cmd (project_name subject_id session_id participants_tsv : string)
  : list string :=
  let raw_sorted_dir :=
    "/data/storage/projects/" +:+ project_name +:+ "/mri/raw_sorted/sub-" +:+
    subject_id +:+ "/ses-" +:+ session_id in
  [ "python3"; "/data/storage/software/extract_subject_info.py";
    "--dicom_path"; raw_sorted_dir;
    "--subject_id"; "sub-" +:+ subject_id;
    "--session_id"; "ses-" +:+ session_id;
    "--participants_tsv"; participants_tsv ].

(** Lines 241-264. *)
Definition update_participants (project_name reconstructed_path
    subject_id session_id : string) (st : state) : state :=
  let participants_tsv := path_join reconstructed_path "participants.tsv" in
  let st :=
    match fs st !! participants_tsv with
    | None => with_fs (<[participants_tsv := FFile header_line]> (fs st)) st
    | Some _ => st
    end in
  let cmd := extract_cmd project_name subject_id session_id participants_tsv in
  let st := say (RunningExtract subject_id session_id) st in
  let st := called (RunExtract cmd) st in
  let '(fs', ok) := extract_subject_info cmd (fs st) in
  let st := with_fs fs' st in
  if ok then st else say ExtractFailed st.

(** The paths a session step works on. *)
Definition raw_dir (raw_path subject_id session_id : string) : string :=
  path_join (path_join raw_path ("sub-" +:+ subject_id)) ("ses-" +:+ session_id).
Definition bids_dir (reconstructed_path subject_id session_id : string) : string :=
  path_join (path_join reconstructed_path ("sub-" +:+ subject_id))
            ("ses-" +:+ session_id).

(** The body of the session loop, lines 124-264, for one entry of the
    subject directory. *)
Definition process_entry (project_name subject_dir_name : string)
    (do_bids : bool) (reconstructed_path raw_path : string)
    (entry : string * node) (st : state) : res :=
  match entry with
  | (_, File _) => Ok st
  | (session_id_short, Dir items) =>
      let session_id := "20" +:+ session_id_short in
      let st := say (FoundSession session_id) st in
      let meg_files := glob_fif items in
      match meg_files with
      | [] => Ok (say (NoFifFiles session_id_short session_id) st)
      | _ =>
          let subject_id := copy_subject_id subject_dir_name in
          let raw_subj_ses_dir := raw_dir raw_path subject_id session_id in
          match mkdir_p raw_subj_ses_dir (fs st) with
          | None => Raise st
          | Some fs1 =>
              let st := with_fs (copy_files raw_subj_ses_dir items fs1) st in
              let st := say (CopiedRaw raw_subj_ses_dir) st in
              let '(subject_id, st) :=
                convert do_bids session_id reconstructed_path
                        meg_files subject_id st in
              let subject_bids_dir :=
                bids_dir reconstructed_path subject_id session_id in
              do st <- relocate subject_bids_dir st;
              Ok (update_participants project_name reconstructed_path
                                      subject_id session_id st)
          end
      end
  end.

Fixpoint process_entries (project_name subject_dir_name : string)
    (do_bids : bool) (reconstructed_path raw_path : string)
    (entries : list (string * node)) (st : state) : res :=
  match entries with
  | [] => Ok st
  | e :: rest =>
      do st <- process_entry project_name subject_dir_name do_bids
                             reconstructed_path raw_path e st;
      process_entries project_name subject_dir_name do_bids
                      reconstructed_path raw_path rest st
  end.

(** Lines 108-267, run once the pre-check has passed. *)
Definition process (project_name subject_dir_name : string) (do_bids : bool)
    (entries : list (string * node)) (st : state) : res :=
  do st <- (if do_bids then install_if_missing "mne_bids" st else Ok st);
  let reconstructed_base := "/data/storage/projects/" +:+ project_name +:+ "/meg" in
  let reconstructed_path := path_join reconstructed_base "reconstructed" in
  let raw_path := path_join reconstructed_base "raw" in
  match mkdir_p reconstructed_path (fs st) with
  | None => Raise st
  | Some fs1 =>
      match mkdir_p raw_path fs1 with
      | None => Raise (with_fs fs1 st)
      | Some fs2 =>
          do st <- process_entries project_name subject_dir_name do_bids
                     reconstructed_path raw_path entries (with_fs fs2 st);
          Ok (say AllProcessed st)
      end
  end.

(** The whole script.  [argv] is [sys.argv]; [subject_dir_name] is the
    final component of [sys.argv[1]] and [subject_dir] is what is found at
    that path ([None] when nothing is). *)
Definition main (argv : list string) (subject_dir_name : string)
    (subject_dir : option node) (st : state) : state * outcome :=
  match argv with
  | _ :: _ :: project_name :: rest =>
      let do_bids :=
        match rest with
        | flag :: _ => String.eqb (lower flag) "--bids"
        | [] => false
        end in
      match subject_dir with
      | Some (Dir entries) =>
          let st := say (CheckingSubject subject_dir_name) st in
          let r := precheck subject_dir_name entries in
          let st := says (snd r) st in
          if fst r
          then (say (SubjectSkipped subject_dir_name) st, Exited 0)
          else
            match process project_name subject_dir_name do_bids entries st with
            | Ok st => (st, Completed)
            | Raise st => (st, Uncaught)
            end
      | _ => (say NotADirectory st, Exited 0)
      end
  | _ => (say Usage st, Exited 1)
  end.

(** The subject token of a recording that loads and whose name matches
    the pattern of line 171. *)
Definition loaded_and_parsed (f : string * node) : option string :=
  if read_raw_fif (fst f) (snd f) then fst <$> match_filename (fst f) else None.

(** The token of the last such recording of a session. *)
Definition last_parsed_subject (meg_files : list (string * node))
  : option string :=
  last (omap loaded_and_parsed meg_files).

(** The state of a session step once the raw copy is made. *)
Definition after_copy (raw_path subject_dir_name session_id_short : string)
    (items : list (string * node)) (fs1 : gmap string fnode) (st : state)
  : state :=
  let session_id := "20" +:+ session_id_short in
  let raw_subj_ses_dir :=
    raw_dir raw_path (copy_subject_id subject_dir_name) session_id in
  say (CopiedRaw raw_subj_ses_dir)
      (with_fs (copy_files raw_subj_ses_dir items fs1)
               (say (FoundSession session_id) st)).

End Script.


(** *** Notions of the statements

    The file that the copy step finds for destination path [p]: the first
    file of the session folder whose destination is [p]. *)
Fixpoint source_at (raw_subj_ses_dir : string) (items : list (string * node))
    (p : string) : option fnode :=
  match items with
  | [] => None
  | (name, File data) :: rest =>
      if String.eqb (path_join raw_subj_ses_dir name) p then Some (FFile data)
      else source_at raw_subj_ses_dir rest p
  | (_, Dir _) :: rest => source_at raw_subj_ses_dir rest p
  end.


(** The grammar of recording names, in the words of the specification: an
    optional "sub" prefix with its separator, an alphanumeric subject token,
    a separator, an alphabetic task token with optional trailing digits, a
    separator, the literal "raw", and whatever follows. *)
Record fname_parts := {
  fp_prefix : string;
  fp_subject : string;
  fp_sep1 : ascii;
  fp_task : string;
  fp_digits : string;
  fp_sep2 : ascii;
  fp_rest : string
}.

Definition assemble (q : fname_parts) : string :=
  fp_prefix q +:+ fp_subject q +:+
  String (fp_sep1 q)
    (fp_task q +:+ fp_digits q +:+ String (fp_sep2 q) ("raw" +:+ fp_rest q)).

Definition well_formed (q : fname_parts) : Prop :=
  (fp_prefix q = "" ∨ fp_prefix q = "sub-" ∨ fp_prefix q = "sub_") ∧
  fp_subject q ≠ "" ∧ forall_str is_alnum_lower_c (fp_subject q) = true ∧
  is_sep_c (fp_sep1 q) = true ∧
  fp_task q ≠ "" ∧ forall_str is_alpha_lower_c (fp_task q) = true ∧
  forall_str is_digit_c (fp_digits q) = true ∧
  is_sep_c (fp_sep2 q) = true.

(** What the grammar says the parts of a name stand for: the run is absent
    when there are no digits. *)
Definition parts_meaning (q : fname_parts) : parsed :=
  {| p_subject := upper (fp_subject q);
     p_task := fp_task q;
     p_run := match fp_digits q with
              | EmptyString => None
              | ds => Some (Z.of_N (decimal ds))
              end |}.

(** *** The canonical subject ID, in the words of the specification

    Strip a leading "sub-" or "sub_" whatever its case, remove every
    remaining dash and underscore, upper-case the rest. *)
Definition has_sub_prefix (name : string) : bool :=
  String.eqb (lower (take_str 4 name)) "sub-" ||
  String.eqb (lower (take_str 4 name)) "sub_".
Definition canonical_subject_id (name : string) : string :=
  let rest := if has_sub_prefix name then drop_str 4 name else name in
  upper (filter_str (λ c, negb (Ascii.eqb c "-") && negb (Ascii.eqb c "_")) rest).

(** *** Notions of the further statements *)

(** The names the pattern of line 171 takes: the grammar of [well_formed]
    with the separator after "sub" optional. *)
Definition accepted (q : fname_parts) : Prop :=
  (fp_prefix q = "" ∨ fp_prefix q = "sub" ∨
   fp_prefix q = "sub-" ∨ fp_prefix q = "sub_") ∧
  fp_subject q ≠ "" ∧ forall_str is_alnum_lower_c (fp_subject q) = true ∧
  is_sep_c (fp_sep1 q) = true ∧
  fp_task q ≠ "" ∧ forall_str is_alpha_lower_c (fp_task q) = true ∧
  forall_str is_digit_c (fp_digits q) = true ∧
  is_sep_c (fp_sep2 q) = true.

Definition is_upper_alnum_c (c : ascii) : bool := is_upper_c c || is_digit_c c.

(** The BIDS path of lines 189-197 for a parsed name. *)
Definition bids_path_of (session_id reconstructed_path : string) (p : parsed)
  : BIDSPath :=
  {| bp_subject := p_subject p; bp_session := session_id;
     bp_task := p_task p; bp_run := p_run p; bp_root := reconstructed_path |}.

(** The conversion a recording is due: none when it does not load or its
    name does not parse. *)
Definition write_call (read_raw_fif : string → node → bool)
    (session_id reconstructed_path : string) (f : string * node) : option call :=
  if read_raw_fif (fst f) (snd f)
  then (λ p, WriteRawBids (fst f) (bids_path_of session_id reconstructed_path p))
         <$> parse_filename (fst f)
  else None.



(** The state a step ends in, however it ends. *)
Definition state_of (r : res) : state :=
  match r with
  | Ok st => st
  | Raise st => st
  end.

(** The call is the installation of a package. *)
Definition is_pip (c : call) : bool :=
  match c with
  | PipInstall _ => true
  | _ => false
  end.

(** Whether the command line asks for the conversion (line 56). *)
Definition bids_flag (rest : list string) : bool :=
  match rest with
  | flag :: _ => String.eqb (lower flag) "--bids"
  | [] => false
  end.

(** A session folder in which line 84 finds a file to check whose stem
    lacks the expected ID. *)
Definition stem_lacks_id (subject : string) (entries : list (string * node))
  : Prop :=
  ∃ session es fname n,
    (session, Dir es) ∈ entries ∧ (fname, n) ∈ es ∧
    is_checked_file fname n = true ∧
    id_in_stem (normalize_subject_id subject) fname = false.

End ReconstructMEG.

(* ===================================================================== *)
(** ** extract_subject_info.py *)
(* ===================================================================== *)

Module ExtractSubjectInfo.
Import Py Re.

(** *** Python values *)

(** A value held by a DICOM element or a table cell: a [str], [None], or
    any other object, known by what [str()] makes of it.  Only a [str] can
    be equal to a [str]. *)
Inductive pyvalue : Type :=
| PyStr (s : string)
| PyNone
| PyObj (repr : string).

(** [str(v)]. *)
Definition py_str (v : pyvalue) : string :=
  match v with
  | PyStr s => s
  | PyNone => "None"
  | PyObj r => r
  end.

(** [v == s] for a [str] [s]. *)
Definition py_eq_str (v : pyvalue) (s : string) : bool :=
  match v with
  | PyStr t => String.eqb t s
  | _ => false
  end.

Definition na : string := "n/a".

(** Exceptions that are told apart. *)
Inductive exn : Type :=
| IndexError
| ValueError
| TypeError
| CsvError.

Inductive result (A : Type) : Type :=
| Returns (a : A)
| Raises (e : exn).
Arguments Returns {A} a.
Arguments Raises {A} e.

(** [s[-1]] and [s[:-1]]. *)
Fixpoint last_c (s : string) : option ascii :=
  match s with
  | EmptyString => None
  | String c EmptyString => Some c
  | String _ s' => last_c s'
  end.
Fixpoint init_str (s : string) : string :=
  match s with
  | EmptyString => EmptyString
  | String _ EmptyString => EmptyString
  | String c s' => String c (init_str s')
  end.

(** *** [datetime.strptime(s, '%Y%m%d')] *)

Definition one_of (cs : string) (c : ascii) : bool :=
  contains (String c "") cs.
Definition d19 (c : ascii) : bool := is_digit_c c && negb (Ascii.eqb c "0").

(** The regular expression that strptime builds for the format:
    %Y is four digits, %m is [1[0-2] | 0[1-9] | [1-9]] and
    %d is [3[01] | [12]\d | 0[1-9] | [1-9] | space [1-9]]. *)
Definition re_Y : re :=
  Seq (Chr is_digit_c) (Seq (Chr is_digit_c) (Seq (Chr is_digit_c) (Chr is_digit_c))).
Definition re_m : re :=
  Alt (Seq (Lit_c "1") (Chr (one_of "012")))
 (Alt (Seq (Lit_c "0") (Chr d19))
      (Chr d19)).
Definition re_d : re :=
  Alt (Seq (Lit_c "3") (Chr (one_of "01")))
 (Alt (Seq (Chr (one_of "12")) (Chr is_digit_c))
 (Alt (Seq (Lit_c "0") (Chr d19))
 (Alt (Chr d19)
      (Seq (Lit_c " ") (Chr d19))))).
Definition re_Ymd : re :=
  Seq (Group 1 re_Y) (Seq (Group 2 re_m) (Group 3 re_d)).

Definition is_leap (y : Z) : bool :=
  (y mod 4 =? 0) && (negb (y mod 100 =? 0) || (y mod 400 =? 0)).
Definition days_in_month (y m : Z) : Z :=
  if m =? 2 then (if is_leap y then 29 else 28)
  else if (m =? 4) || (m =? 6) || (m =? 9) || (m =? 11) then 30
  else 31.
(** What the [datetime] constructor accepts. *)
Definition valid_date (y m d : Z) : bool :=
  (1 <=? y) && (y <=? 9999) && (1 <=? m) && (m <=? 12) &&
  (1 <=? d) && (d <=? days_in_month y m).

Record date := { year : Z; month : Z; day : Z }.

(** [None] stands for the ValueError strptime raises. *)
Definition strptime_Ymd (s : string) : option date :=
  match rmatch re_Ymd s with
  | Some (rest, m) =>
      if negb (String.eqb rest "") then None     (* unconverted data remains *)
      else
        match py_int (group 1 m), py_int (group 2 m), py_int (group 3 m) with
        | Some y, Some mo, Some d =>
            if valid_date y mo d
            then Some {| year := y; month := mo; day := d |} else None
        | _, _, _ => None
        end
  | None => None
  end.

(** [(a1, a2) < (b1, b2)] on pairs of integers. *)
Definition pair_lt (a1 a2 b1 b2 : Z) : bool :=
  (a1 <? b1) || ((a1 =? b1) && (a2 <? b2)).

(** Line 57. *)
Definition age_years (dob study_date : date) : Z :=
  year study_date - year dob -
  (if pair_lt (month study_date) (day study_date) (month dob) (day dob)
   then 1 else 0).

(** *** DICOM field extraction (lines 16-64) *)

(** A data element: its value and its truth value as an object. *)
Record DataElement := { value : pyvalue; truth : bool }.

Definition tag : Type := (N * N)%type.
Definition TAG_PATIENT_AGE : tag := (0x0010, 0x1010)%N.
Definition TAG_PATIENT_WEIGHT : tag := (0x0010, 0x1030)%N.
Definition TAG_PATIENT_SEX : tag := (0x0010, 0x0040)%N.
Definition TAG_STUDY_DATE : tag := (0x0008, 0x0020)%N.
Definition TAG_PATIENT_BIRTH_DATE : tag := (0x0010, 0x0030)%N.

(** Lines 43-49. *)
Definition explicit_age (v : pyvalue) : result string :=
  let age_raw := py_str v in
  match last_c age_raw with
  | None => Raises IndexError
  | Some c =>
      let age_raw := if one_of "YMD" c then init_str age_raw else age_raw in
      match py_int age_raw with
      | Some n => Returns (str_int n)
      | None => Returns age_raw                 (* except ValueError *)
      end
  end.

(** Lines 55-60: [None] stands for any exception of the try block. *)
Definition age_from_dates (birth study : pyvalue) : string :=
  match birth with
  | PyStr b =>
      match strptime_Ymd b with
      | Some dob =>
          match study with
          | PyStr s =>
              match strptime_Ymd s with
              | Some study_date => str_int (age_years dob study_date)
              | None => na
              end
          | _ => na
          end
      | None => na
      end
  | _ => na
  end.

Section Extract.

(** [pydicom.dcmread(path, stop_before_pixels=True)]: the data set, or
    [None] when it raises. *)
Variable dcmread : string → option (gmap tag DataElement).

Definition extract_fields (dicom_file : string)
  : result (pyvalue * string * string) :=
  match dcmread dicom_file with
  | None => Returns (PyStr na, na, na)
  | Some dcm =>
      let sex_element := dcm !! TAG_PATIENT_SEX in
      let weight_element := dcm !! TAG_PATIENT_WEIGHT in
      let age_element := dcm !! TAG_PATIENT_AGE in
      let sex :=
        match sex_element with
        | Some el => if truth el then value el else PyStr na
        | None => PyStr na
        end in
      let sex := if py_eq_str sex "" then PyStr na else sex in
      let weight :=
        match weight_element with
        | Some el => if truth el then value el else PyStr na
        | None => PyStr na
        end in
      let weight := if py_eq_str weight "" then na else py_str weight in
      let age :=
        match age_element with
        | Some el =>
            if truth el && negb (py_eq_str (value el) "")
            then match explicit_age (value el) with
                 | Returns a => Returns (Some a)
                 | Raises e => Raises e
                 end
            else Returns None
        | None => Returns None
        end in
      match age with
      | Raises e => Raises e
      | Returns (Some a) => Returns (sex, weight, a)
      | Returns None =>
          let study_date_element := dcm !! TAG_STUDY_DATE in
          let birth_date_element := dcm !! TAG_PATIENT_BIRTH_DATE in
          match study_date_element, birth_date_element with
          | Some sd, Some bd =>
              if truth sd && truth bd
              then Returns (sex, weight, age_from_dates (value bd) (value sd))
              else Returns (sex, weight, na)
          | _, _ => Returns (sex, weight, na)
          end
      end
  end.

End Extract.

(** *** The csv module, as the script configures it

    Dialect "excel" with a tab delimiter: the double quote as quote character, doubled
    quotes, no escape character, no skipping of initial space, not strict,
    minimal quoting, line terminator CR LF. *)

Definition TABc : ascii := "009".
Definition LFc : ascii := "010".
Definition CRc : ascii := "013".
Definition QUOTEc : ascii := "034".
Definition TAB : string := String TABc "".
Definition CRLF : string := String CRc (String LFc "").
Definition QUOTE : string := String QUOTEc "".

(** **** Text input: [open(path, 'r', encoding='utf-8')] *)

(** Universal newlines: CR LF and a lone CR are read as LF.  [pendingcr]
    tells that the previous character was a CR, so that a LF that follows is
    dropped. *)
Fixpoint translate_go (pendingcr : bool) (s : string) : string :=
  match s with
  | EmptyString => EmptyString
  | String c s' =>
      if Ascii.eqb c CRc then String LFc (translate_go true s')
      else if Ascii.eqb c LFc && pendingcr then translate_go false s'
      else String c (translate_go false s')
  end.

Definition translate_newlines (s : string) : string := translate_go false s.

(** **** The reader's state machine *)

Inductive parser_state : Type :=
| START_RECORD
| START_FIELD
| IN_FIELD
| IN_QUOTED_FIELD
| QUOTE_IN_QUOTED_FIELD
| EAT_CRNL.

Record reader := {
  state : parser_state;
  field : string;              (* the field being collected *)
  fields : list string         (* the fields of the record so far *)
}.

Definition parse_reset : reader :=
  {| state := START_RECORD; field := ""; fields := [] |}.
Definition set_state (st : parser_state) (r : reader) : reader :=
  {| state := st; field := field r; fields := fields r |}.
Definition parse_save_field (r : reader) : reader :=
  {| state := state r; field := ""; fields := fields r ++ [field r] |}.
Definition parse_add_char (c : ascii) (r : reader) : reader :=
  {| state := state r; field := field r +:+ String c ""; fields := fields r |}.

Definition is_nl (c : ascii) : bool := Ascii.eqb c LFc || Ascii.eqb c CRc.

(** The case START_FIELD of the machine, for a character of the line. *)
Definition start_field (r : reader) (c : ascii) : reader :=
  if is_nl c then set_state EAT_CRNL (parse_save_field r)
  else if Ascii.eqb c QUOTEc then set_state IN_QUOTED_FIELD r
  else if Ascii.eqb c TABc then parse_save_field r
  else set_state IN_FIELD (parse_add_char c r).

(** One character of a line; [None] is the csv.Error raised in EAT_CRNL. *)
Definition process_char (r : reader) (c : ascii) : option reader :=
  match state r with
  | START_RECORD =>
      if is_nl c then Some (set_state EAT_CRNL r)
      else Some (start_field (set_state START_FIELD r) c)
  | START_FIELD => Some (start_field r c)
  | IN_FIELD =>
      if is_nl c then Some (set_state EAT_CRNL (parse_save_field r))
      else if Ascii.eqb c TABc then Some (set_state START_FIELD (parse_save_field r))
      else Some (parse_add_char c r)
  | IN_QUOTED_FIELD =>
      if Ascii.eqb c QUOTEc then Some (set_state QUOTE_IN_QUOTED_FIELD r)
      else Some (parse_add_char c r)
  | QUOTE_IN_QUOTED_FIELD =>
      if Ascii.eqb c QUOTEc then Some (set_state IN_QUOTED_FIELD (parse_add_char c r))
      else if Ascii.eqb c TABc then Some (set_state START_FIELD (parse_save_field r))
      else if is_nl c then Some (set_state EAT_CRNL (parse_save_field r))
      else Some (set_state IN_FIELD (parse_add_char c r))
  | EAT_CRNL =>
      if is_nl c then Some r else None
  end.

(** The end-of-line mark the reader feeds after the characters of a line. *)
Definition process_eol (r : reader) : reader :=
  match state r with
  | START_RECORD => r
  | START_FIELD | IN_FIELD | QUOTE_IN_QUOTED_FIELD =>
      set_state START_RECORD (parse_save_field r)
  | IN_QUOTED_FIELD => r
  | EAT_CRNL => set_state START_RECORD r
  end.

Definition at_start_record (r : reader) : bool :=
  match state r with START_RECORD => true | _ => false end.

(** The input is exhausted: a record that is under way is closed. *)
Definition end_of_input (r : reader) : list (list string) :=
  if negb (String.eqb (field r) "") ||
     match state r with IN_QUOTED_FIELD => true | _ => false end
  then [fields (parse_save_field r)]
  else [].

(** All the records of [csv.reader(f, delimiter='\t')] for the text of the
    file.  The file yields its lines, each ending with its LF except
    possibly the last; the reader feeds the characters of a line, then the
    end-of-line mark, and hands out a record each time it is back in
    START_RECORD.  [mid] tells that the current line has characters already.
    [None] is the csv.Error. *)
Fixpoint read_text (r : reader) (mid : bool) (text : string)
  : option (list (list string)) :=
  match text with
  | EmptyString =>
      if mid then
        (* a last line without LF *)
        let r' := process_eol r in
        if at_start_record r' then Some [fields r'] else Some (end_of_input r')
      else Some (end_of_input r)
  | String c rest =>
      match process_char r c with
      | None => None
      | Some r1 =>
          if Ascii.eqb c LFc then
            let r2 := process_eol r1 in
            if at_start_record r2
            then cons (fields r2) <$> read_text parse_reset false rest
            else read_text r2 false rest
          else read_text r1 true rest
      end
  end.

Definition csv_reader (text : string) : option (list (list string)) :=
  read_text parse_reset false text.

(** **** csv.DictReader *)

(** One row: [dict(zip(fieldnames, row))], then [None] for the field names
    the row is too short for.  Fields beyond the header go under the key
    [None], which the script never reads; they are dropped here. *)
Definition dict_row (fieldnames row : list string) : gmap string pyvalue :=
  let d := foldl (λ d kv, <[kv.1 := PyStr kv.2]> d) ∅ (zip fieldnames row) in
  foldl (λ d k, <[k := PyNone]> d) d (drop (length row) fieldnames).

Definition is_empty_row (row : list string) : bool :=
  match row with [] => true | _ => false end.

(** [list(csv.DictReader(f, delimiter='\t'))]: the first record is the
    header; empty records after it are skipped. *)
Definition dict_reader (records : list (list string))
  : list (gmap string pyvalue) :=
  match records with
  | [] => []
  | fieldnames :: rows =>
      map (dict_row fieldnames) (List.filter (λ r, negb (is_empty_row r)) rows)
  end.

(** **** The writer *)

Definition is_special_c (c : ascii) : bool :=
  Ascii.eqb c TABc || Ascii.eqb c QUOTEc || Ascii.eqb c CRc || Ascii.eqb c LFc.

Definition needs_quotes (s : string) : bool :=
  negb (forall_str (λ c, negb (is_special_c c)) s).

Fixpoint double_quotes (s : string) : string :=
  match s with
  | EmptyString => EmptyString
  | String c s' =>
      if Ascii.eqb c QUOTEc then String c (String c (double_quotes s'))
      else String c (double_quotes s')
  end.

Definition render_field (s : string) : string :=
  if needs_quotes s then QUOTE +:+ double_quotes s +:+ QUOTE else s.

Fixpoint join (sep : string) (l : list string) : string :=
  match l with
  | [] => ""
  | [x] => x
  | x :: rest => x +:+ sep +:+ join sep rest
  end.

(** The text the writer makes of a field value: [None] is written as the
    empty string, everything else through [str()]. *)
Definition field_text (v : pyvalue) : string :=
  match v with
  | PyNone => ""
  | _ => py_str v
  end.

(** [writer.writerow(values)]: the line written, terminator included.  A
    record of one empty field is written as a pair of quotes. *)
Definition writerow (values : list pyvalue) : string :=
  let body := join TAB (map (λ v, render_field (field_text v)) values) in
  match values, body with
  | _ :: _, EmptyString => QUOTE +:+ QUOTE +:+ CRLF
  | _, _ => body +:+ CRLF
  end.

(** [DictWriter.writerow(rowdict)]: ValueError when the dict has a key that
    is not a field name; missing keys are written as the empty string. *)
Definition dict_writerow (fieldnames : list string)
    (rowdict : gmap string pyvalue) : result string :=
  if bool_decide (dom rowdict ⊆ list_to_set fieldnames)
  then Returns (writerow (map (λ k, default (PyStr "") (rowdict !! k)) fieldnames))
  else Raises ValueError.

(** *** The participants-table merge (lines 66-107) *)

Definition headers : list string :=
  ["participant_id"; "session_id"; "sex"; "weight"; "age"].

(** [row.get(key, '')]. *)
Definition get_or_empty (row : gmap string pyvalue) (key : string) : pyvalue :=
  default (PyStr "") (row !! key).

Record record := {
  subject_id : string;
  session_id : string;
  sex : pyvalue;
  weight : pyvalue;
  age : pyvalue
}.

(** The test of lines 83-85. *)
Definition row_matches (r : record) (row : gmap string pyvalue) : bool :=
  let pid := get_or_empty row "participant_id" in
  let ses := get_or_empty row "session_id" in
  py_eq_str pid (subject_id r) &&
  (py_eq_str ses (session_id r) ||
   (py_eq_str ses "n/a" && negb (String.eqb (session_id r) "n/a"))).

(** Lines 86-89. *)
Definition overwrite (r : record) (row : gmap string pyvalue)
  : gmap string pyvalue :=
  <["age" := age r]>
    (<["weight" := weight r]>
       (<["sex" := sex r]>
          (<["session_id" := PyStr (session_id r)]> row))).

(** Lines 78-91: the rows after the scan, and the flag [updated]. *)
Fixpoint update_loop (r : record) (rows : list (gmap string pyvalue))
  : list (gmap string pyvalue) * bool :=
  match rows with
  | [] => ([], false)
  | row :: rest =>
      if row_matches r row
      then (overwrite r row :: rest, true)
      else let res := update_loop r rest in (row :: fst res, snd res)
  end.

(** Lines 94-99. *)
Definition new_row (r : record) : gmap string pyvalue :=
  <["age" := age r]>
    (<["weight" := weight r]>
       (<["sex" := sex r]>
          (<["session_id" := PyStr (session_id r)]>
             (<["participant_id" := PyStr (subject_id r)]>
                (list_to_map (map (λ h, (h, PyStr "")) headers)))))).

(** Lines 78-100. *)
Definition merge_rows (r : record) (rows : list (gmap string pyvalue))
  : list (gmap string pyvalue) :=
  let res := update_loop r rows in
  if snd res then fst res else fst res ++ [new_row r].

(** Line 106. *)
Definition clean_row (row : gmap string pyvalue) : gmap string pyvalue :=
  list_to_map (map (λ h, (h, get_or_empty row h)) headers).

(** Lines 102-107: the text written. *)
Fixpoint write_rows (rows : list (gmap string pyvalue)) : result string :=
  match rows with
  | [] => Returns ""
  | row :: rest =>
      match dict_writerow headers (clean_row row) with
      | Raises e => Raises e
      | Returns line =>
          match write_rows rest with
          | Raises e => Raises e
          | Returns text => Returns (line +:+ text)
          end
      end
  end.

Definition write_table (rows : list (gmap string pyvalue)) : result string :=
  (* writeheader() writes the dict that maps every field name to itself *)
  match dict_writerow headers (list_to_map (map (λ h, (h, PyStr h)) headers)) with
  | Raises e => Raises e
  | Returns line =>
      match write_rows rows with
      | Raises e => Raises e
      | Returns text => Returns (line +:+ text)
      end
  end.

(** U+FEFF in UTF-8. *)
Definition BOM : string := String "239" (String "187" (String "191" "")).

(** Lines 70-76 for a file that exists: the first character is skipped
    when it is the byte-order mark. *)
Definition read_table (content : string)
  : result (list (gmap string pyvalue)) :=
  let text := if String.prefix BOM content
              then drop_str 3 content else content in
  match csv_reader (translate_newlines text) with
  | Some records => Returns (dict_reader records)
  | None => Raises CsvError
  end.

(** The whole function.  [file] is the content of the table file, [None]
    when the path does not exist; the result is the content written. *)
Definition update_participants_tsv (file : option string) (r : record)
  : result string :=
  match (match file with
         | Some content => read_table content
         | None => Returns []
         end) with
  | Raises e => Raises e
  | Returns rows => write_table (merge_rows r rows)
  end.

(** *** Finding the DICOM file (lines 9-14) *)

(** [os.path.join(a, b)]. *)
Definition os_path_join (a b : string) : string :=
  if String.prefix "/" b then b
  else if String.eqb a "" || endswith "/" a then a +:+ b
  else a +:+ "/" +:+ b.

(** The names of the entries of a directory that are not directories. *)
Definition nondirs (entries : list (string * ReconstructMEG.node)) : list string :=
  omap (λ e, match snd e with
             | ReconstructMEG.File _ => Some (fst e)
             | ReconstructMEG.Dir _ => None
             end) entries.

(** [os.walk(top)], top down: the directory with the names of its files,
    then the walk of each of its subdirectories in turn.  What is not a
    directory yields nothing. *)
Fixpoint walk (top : string) (n : ReconstructMEG.node)
  : list (string * list string) :=
  match n with
  | ReconstructMEG.File _ => []
  | ReconstructMEG.Dir entries =>
      (top, nondirs entries) ::
      (fix walk_entries (es : list (string * ReconstructMEG.node)) :=
         match es with
         | [] => []
         | (name, child) :: rest =>
             walk (os_path_join top name) child ++ walk_entries rest
         end) entries
  end.

(** The test of line 12. *)
Definition is_dcm (f : string) : bool := endswith ".dcm" (lower f).

(** The loop of lines 11-13 over the files of one directory. *)
Definition first_dcm (root : string) (files : list string) : option string :=
  os_path_join root <$> List.find is_dcm files.

(** The loop of lines 10-13 over what the walk yields. *)
Fixpoint first_in_walk (w : list (string * list string)) : option string :=
  match w with
  | [] => None
  | (root, files) :: rest =>
      match first_dcm root files with
      | Some p => Some p
      | None => first_in_walk rest
      end
  end.

(** [tree] is what is found at the path [directory], [None] when nothing
    is. *)
Definition get_first_dicom (directory : string)
    (tree : option ReconstructMEG.node) : option string :=
  match tree with
  | Some n => first_in_walk (walk directory n)
  | None => None
  end.

(** *** The script's [main] (lines 109-119) *)

Definition na_triple : pyvalue * string * string := (PyStr na, na, na).

Section Main.

Variable dcmread : string → option (gmap tag DataElement).

(** [tree] is what is found at [dicom_path] and [table] is the content of the
    file at [participants_tsv]; the result is the content written there. *)
Definition main (dicom_path : string) (tree : option ReconstructMEG.node)
    (subject session : string) (table : option string) : result string :=
  let dicom_file := get_first_dicom dicom_path tree in
  let extracted :=
    match dicom_file with
    | Some p => if String.eqb p "" then Returns na_triple
                else extract_fields dcmread p
    | None => Returns na_triple
    end in
  match extracted with
  | Raises e => Raises e
  | Returns (sex, weight, age) =>
      update_participants_tsv table
        {| subject_id := subject; session_id := session;
           sex := sex; weight := PyStr weight; age := PyStr age |}
  end.

End Main.

(** *** Notions of the statements about the age *)

(** The age of a result of [extract_fields]. *)
Definition age_of (r : result (pyvalue * string * string)) : option string :=
  match r with
  | Returns (_, _, a) => Some a
  | Raises _ => None
  end.

(** The string without its last character when that is a unit code. *)
Definition without_unit (s : string) : string :=
  match last_c s with
  | Some c => if one_of "YMD" c then init_str s else s
  | None => s
  end.

(** A string of digits without its leading zeros, one zero being kept when
    there is nothing else. *)
Fixpoint drop_zeros (s : string) : string :=
  match s with
  | String c s' => if Ascii.eqb c "0" then drop_zeros s' else s
  | EmptyString => EmptyString
  end.
Definition strip_leading_zeros (s : string) : string :=
  match drop_zeros s with
  | EmptyString => "0"
  | t => t
  end.

(** A date in the eight-digit year-month-day format. *)
Definition digit_of (k : Z) : ascii := ascii_of_N (48 + Z.to_N k).
Definition digits2 (n : Z) : string :=
  String (digit_of (n / 10)) (String (digit_of (n mod 10)) "").
Definition digits4 (n : Z) : string :=
  String (digit_of (n / 1000)) (String (digit_of (n / 100 mod 10))
    (String (digit_of (n / 10 mod 10)) (String (digit_of (n mod 10)) ""))).
Definition fmt_date (y m d : Z) : string :=
  digits4 y +:+ digits2 m +:+ digits2 d.

(** The explicit age field is absent or empty: there is no age element, or
    the script takes it for absent, or its value is the empty string. *)
Definition age_absent_or_empty (dcm : gmap tag DataElement) : Prop :=
  match dcm !! TAG_PATIENT_AGE with
  | None => True
  | Some el => truth el = false ∨ value el = PyStr ""
  end.

(** The value parses as a date: it is a [str] that strptime accepts. *)
Definition parses (v : pyvalue) : Prop :=
  ∃ s d, v = PyStr s ∧ strptime_Ymd s = Some d.

(** The data set of a file that holds a birth date and a study date and no
    other element, and the same with an empty age element. *)
Definition dates_only (birth study : string) : gmap tag DataElement :=
  <[TAG_PATIENT_BIRTH_DATE := {| value := PyStr birth; truth := true |}]>
    (<[TAG_STUDY_DATE := {| value := PyStr study; truth := true |}]> ∅).
Definition empty_age_and_dates (birth study : string) : gmap tag DataElement :=
  <[TAG_PATIENT_AGE := {| value := PyStr ""; truth := true |}]>
    (dates_only birth study).

(** *** Notions of the statements about the table file *)

(** The five columns of a row, as text: the value under each header, the
    empty string for a missing key or for [None]. *)
Definition row_fields (row : gmap string pyvalue) : list string :=
  map (λ h, field_text (get_or_empty row h)) headers.

(** The records of the table: the header, then the rows. *)
Definition table_records (rows : list (gmap string pyvalue)) : list (list string) :=
  headers :: map row_fields rows.

(** A record as a tab-delimited line. *)
Definition render_record (terminator : string) (fs : list string) : string :=
  join TAB (map render_field fs) +:+ terminator.

Fixpoint concat_str (l : list string) : string :=
  match l with
  | [] => ""
  | x :: rest => x +:+ concat_str rest
  end.

Definition render_table (terminator : string) (records : list (list string))
  : string :=
  concat_str (map (render_record terminator) records).

Definition LF : string := String LFc "".

(** The header line of the participants table. *)
Definition header_text : string :=
  "participant_id" +:+ TAB +:+ "session_id" +:+ TAB +:+ "sex" +:+ TAB +:+
  "weight" +:+ TAB +:+ "age" +:+ CRLF.







(** The row holds the five fields of the record. *)
Definition written_by (r : record) (row : gmap string pyvalue) : Prop :=
  get_or_empty row "participant_id" = PyStr (subject_id r) ∧
  get_or_empty row "session_id" = PyStr (session_id r) ∧
  get_or_empty row "sex" = sex r ∧
  get_or_empty row "weight" = weight r ∧
  get_or_empty row "age" = age r.

(** The rows that are read, whether the file exists or not. *)
Definition read_rows (file : option string) : result (list (gmap string pyvalue)) :=
  match file with
  | Some content => read_table content
  | None => Returns []
  end.

(** *** Notions of the further statements *)

(** The subdirectories of a directory, each under its joined path. *)
Definition walk_entries (top : string)
    (es : list (string * ReconstructMEG.node)) : list (string * list string) :=
  flat_map (λ e, walk (os_path_join top (fst e)) (snd e)) es.

(** Some file of the tree, at any depth, has a name that ends in ".dcm"
    whatever its case. *)
Fixpoint has_dcm (n : ReconstructMEG.node) : bool :=
  match n with
  | ReconstructMEG.File _ => false
  | ReconstructMEG.Dir entries =>
      (fix any (es : list (string * ReconstructMEG.node)) : bool :=
         match es with
         | [] => false
         | (name, child) :: rest =>
             match child with
             | ReconstructMEG.File _ => is_dcm name
             | ReconstructMEG.Dir _ => has_dcm child
             end || any rest
         end) entries
  end.

(** The record of a subject and session for which nothing was extracted. *)
Definition na_record (subject session : string) : record :=
  {| subject_id := subject; session_id := session;
     sex := PyStr na; weight := PyStr na; age := PyStr na |}.

(** The five columns the merge writes for a record. *)
Definition record_fields (r : record) : list string :=
  [subject_id r; session_id r;
   field_text (sex r); field_text (weight r); field_text (age r)].

(** The first date is earlier than the second. *)
Definition earlier (a b : date) : Prop :=
  year a < year b ∨
  (year a = year b ∧
   (month a < month b ∨ (month a = month b ∧ day a < day b))).

(** The value the script takes from an element for sex or weight: the
    element's value, or the sentinel when the element is absent. *)
Definition element_value (e : option DataElement) : pyvalue :=
  match e with
  | Some el => if truth el then value el else PyStr na
  | None => PyStr na
  end.

(** *** The match rule of the merge, in the words of the specification *)

Definition matches_record (r : record) (row : gmap string pyvalue) : Prop :=
  get_or_empty row "participant_id" = PyStr (subject_id r) ∧
  (get_or_empty row "session_id" = PyStr (session_id r) ∨
   (get_or_empty row "session_id" = PyStr "n/a" ∧ session_id r ≠ "n/a")).

End ExtractSubjectInfo.

(* ===================================================================== *)
(** ** Sample environments and inputs *)
(* ===================================================================== *)

Module Examples.
Import ReconstructMEG.

Definition st0 : state :=
  {| fs := ∅; calls := []; out := []; failed_bids_files := [] |}.

(** An environment in which every package is installed, the writer and
    the extraction subprocess succeed and leave the tree as it is. *)
Definition installed (_ : string) : bool := true.
Definition loads_all (_ : string) (_ : node) : bool := true.
Definition loads_none (_ : string) (_ : node) : bool := false.
Definition writer_ok (_ : string) (_ : node) (_ : BIDSPath)
    (t : gmap string fnode) : gmap string fnode * bool := (t, true).
Definition extractor_ok (_ : list string) (t : gmap string fnode)
  : gmap string fnode * bool := (t, true).

Definition argv_bids : list string :=
  ["reconstruct_MEG.py"; "/data/storage/sourcedata/P/meg/sub-XYZ"; "P"; "--bids"].

(** One session, one recording of subject XYZ1 in the folder of sub-XYZ. *)
Definition session_xyz1 : list (string * node) :=
  [("2401", Dir [("sub-xyz1_task-raw.fif", File "raw data")])].


(** Data sets: one with only an age, one that cannot be read. *)
Definition age_only (a : string)
  : gmap ExtractSubjectInfo.tag ExtractSubjectInfo.DataElement :=
  {[ ExtractSubjectInfo.TAG_PATIENT_AGE :=
       {| ExtractSubjectInfo.value := ExtractSubjectInfo.PyStr a;
          ExtractSubjectInfo.truth := true |} ]}.
Definition reads (dcm : gmap ExtractSubjectInfo.tag ExtractSubjectInfo.DataElement)
    (_ : string) := Some dcm.
Definition unreadable (_ : string)
  : option (gmap ExtractSubjectInfo.tag ExtractSubjectInfo.DataElement) := None.



Definition reconstructed_P : string := "/data/storage/projects/P/meg/reconstructed".
Definition raw_P : string := "/data/storage/projects/P/meg/raw".

(** A data set with a sex and with a weight whose value is [None]. *)
Definition weight_none
  : gmap ExtractSubjectInfo.tag ExtractSubjectInfo.DataElement :=
  <[ExtractSubjectInfo.TAG_PATIENT_SEX :=
      {| ExtractSubjectInfo.value := ExtractSubjectInfo.PyStr "F";
         ExtractSubjectInfo.truth := true |}]>
    (<[ExtractSubjectInfo.TAG_PATIENT_WEIGHT :=
         {| ExtractSubjectInfo.value := ExtractSubjectInfo.PyNone;
            ExtractSubjectInfo.truth := true |}]> ∅).

(** A DICOM directory whose own file is listed after a subdirectory. *)
Definition dicom_tree : node :=
  Dir [("series1", Dir [("a.dcm", File "")]); ("B.DCM", File "")].


(** An environment in which no package is found and none can be
    installed. *)
Definition not_installed (_ : string) : bool := false.


Definition argv_plain : list string :=
  ["reconstruct_MEG.py"; "/data/storage/sourcedata/P/meg/sub-XYZ"; "P"].

End Examples.

(* ===================================================================== *)
(** * Properties *)
(* ===================================================================== *)

Import Py Re.

(** ** Facts about characters and strings *)

Section StringFacts.

Lemma eqb_lower_dash (c : ascii) :
  Ascii.eqb (lower_c c) "-" = Ascii.eqb c "-".
Proof. destruct c as [[] [] [] [] [] [] [] []]; reflexivity. Qed.

Lemma eqb_lower_underscore (c : ascii) :
  Ascii.eqb (lower_c c) "_" = Ascii.eqb c "_".
Proof. destruct c as [[] [] [] [] [] [] [] []]; reflexivity. Qed.

Lemma string_eqb_cons (a b : ascii) (s t : string) :
  String.eqb (String a s) (String b t) = Ascii.eqb a b && String.eqb s t.
Proof. simpl. destruct (Ascii.eqb a b); reflexivity. Qed.

Lemma app_nil_l (s : string) : "" +:+ s = s.
Proof. reflexivity. Qed.
Lemma app_cons (c : ascii) (s t : string) :
  String c s +:+ t = String c (s +:+ t).
Proof. reflexivity. Qed.
Lemma app_nil_r (s : string) : s +:+ "" = s.
Proof. induction s as [|c s IH]; [done | by rewrite app_cons, IH]. Qed.
Lemma app_assoc_str (a b c : string) : (a +:+ b) +:+ c = a +:+ (b +:+ c).
Proof. induction a as [|x a IH]; [done | by rewrite !app_cons, IH]. Qed.
Lemma length_app_str (a b : string) :
  String.length (a +:+ b) = (String.length a + String.length b)%nat.
Proof. induction a as [|x a IH]; [done | rewrite app_cons; simpl; by rewrite IH]. Qed.

Lemma prefix_nil (s : string) : String.prefix "" s = true.
Proof. by destruct s. Qed.

Lemma prefix_cons (a b : ascii) (s t : string) :
  String.prefix (String a s) (String b t) = Ascii.eqb a b && String.prefix s t.
Proof.
  change (String.prefix (String a s) (String b t))
    with (if ascii_dec a b then String.prefix s t else false).
  destruct (ascii_dec a b) as [->|Hne].
  - by rewrite Ascii.eqb_refl.
  - apply Ascii.eqb_neq in Hne. by rewrite Hne.
Qed.




Lemma map_str_app (f : ascii → ascii) (a b : string) :
  map_str f (a +:+ b) = map_str f a +:+ map_str f b.
Proof.
  induction a as [|c a IH]; [done|].
  rewrite app_cons. simpl. by rewrite IH, app_cons.
Qed.

Lemma take_drop_str (n : nat) (s : string) :
  take_str n s +:+ drop_str n s = s.
Proof.
  revert s. induction n as [|n IH]; intros [|c s]; simpl; try done.
  by rewrite app_cons, IH.
Qed.

End StringFacts.

(** ** Subject-ID normalisation *)

Section Normalisation.
Import ReconstructMEG.

(** [normalize_subject_id] computes the canonical subject ID as the
    specification words it. *)
Lemma normalize_subject_id_canonical (name : string) :
  normalize_subject_id name = canonical_subject_id name.
Proof.
  unfold normalize_subject_id, canonical_subject_id, remove_seps, has_sub_prefix.
  assert (Hf : ∀ s, filter_str (λ c, negb (is_sep_c c)) s =
                    filter_str (λ c, negb (Ascii.eqb c "-") && negb (Ascii.eqb c "_")) s).
  { induction s as [|c s IH]; simpl; [reflexivity|].
    unfold is_sep_c at 1. rewrite negb_orb, IH. reflexivity. }
  rewrite Hf. f_equal. f_equal.
  destruct name as [|a [|b [|c [|d rest]]]]; try reflexivity.
  - simpl. destruct (Ascii.eqb (lower_c a) "s"); reflexivity.
  - simpl. destruct (Ascii.eqb (lower_c a) "s"); [|reflexivity].
    destruct (Ascii.eqb (lower_c b) "u"); reflexivity.
  - simpl. destruct (Ascii.eqb (lower_c a) "s"); [|reflexivity].
    destruct (Ascii.eqb (lower_c b) "u"); [|reflexivity].
    destruct (Ascii.eqb (lower_c c) "b"); reflexivity.
  - unfold strip_sub_prefix, is_sep_c.
    change (lower (take_str 4 (String a (String b (String c (String d rest))))))
      with (String (lower_c a) (String (lower_c b) (String (lower_c c)
              (String (lower_c d) EmptyString)))).
    change "sub-" with (String "s" (String "u" (String "b" (String "-" EmptyString)))).
    change "sub_" with (String "s" (String "u" (String "b" (String "_" EmptyString)))).
    rewrite !string_eqb_cons, eqb_lower_dash, eqb_lower_underscore.
    simpl String.eqb. rewrite !andb_true_r.
    destruct (Ascii.eqb (lower_c a) "s"), (Ascii.eqb (lower_c b) "u"),
      (Ascii.eqb (lower_c c) "b"), (Ascii.eqb d "-"), (Ascii.eqb d "_");
      reflexivity.
Qed.

(** C5.  The pre-check's [normalize_subject_id] computes the canonical
    subject ID for every directory name, but the subject ID used to build
    the destination directories (line 135) does not: for the directory name
    "sub_001" the canonical ID is "001" while the copy path uses "SUB001";
    for "sub-BRS-0170" they are "BRS0170" and "BRS-0170". *)
Theorem copy_subject_id_not_canonical :
  (∀ name, normalize_subject_id name = canonical_subject_id name) ∧
  canonical_subject_id "sub_001" = "001" ∧
  copy_subject_id "sub_001" = "SUB001" ∧
  canonical_subject_id "sub-BRS-0170" = "BRS0170" ∧
  copy_subject_id "sub-BRS-0170" = "BRS-0170".
Proof.
  split; [exact normalize_subject_id_canonical|].
  repeat split; reflexivity.
Qed.

End Normalisation.

(** ** The participants-table merge *)

Section Merge.
Import ExtractSubjectInfo.

Lemma py_eq_str_spec (v : pyvalue) (s : string) :
  py_eq_str v s = true ↔ v = PyStr s.
Proof.
  destruct v as [t| |t]; simpl; split; try discriminate.
  - intros H. apply String.eqb_eq in H. by subst.
  - intros [= ->]. apply String.eqb_refl.
Qed.

Lemma row_matches_spec (r : record) (row : gmap string pyvalue) :
  row_matches r row = true ↔ matches_record r row.
Proof.
  unfold row_matches, matches_record.
  rewrite andb_true_iff, orb_true_iff, andb_true_iff, negb_true_iff.
  rewrite !py_eq_str_spec, String.eqb_neq. reflexivity.
Qed.

Lemma row_matches_false (r : record) (row : gmap string pyvalue) :
  row_matches r row = false ↔ ¬ matches_record r row.
Proof.
  rewrite <- row_matches_spec. destruct (row_matches r row); split; done.
Qed.

Lemma update_loop_spec (r : record) (rows : list (gmap string pyvalue)) :
  (∃ before row after,
      rows = before ++ row :: after ∧
      Forall (λ x, ¬ matches_record r x) before ∧
      matches_record r row ∧
      update_loop r rows = (before ++ overwrite r row :: after, true))
  ∨ (Forall (λ x, ¬ matches_record r x) rows ∧
     update_loop r rows = (rows, false)).
Proof.
  induction rows as [|row rest IH]; simpl.
  - right. split; [constructor | reflexivity].
  - destruct (row_matches r row) eqn:Hm.
    + apply row_matches_spec in Hm.
      left. exists [], row, rest.
      split; [reflexivity|]. split; [constructor|]. split; [exact Hm|reflexivity].
    + apply row_matches_false in Hm.
      destruct IH as [(before & x & after & -> & Hb & Hx & ->) | [Hall ->]].
      * left. exists (row :: before), x, after.
        split; [reflexivity|]. split; [by constructor|]. split; [exact Hx|reflexivity].
      * right. split; [by constructor | reflexivity].
Qed.

(** C1.  Either some row matches the new record, and then the first such
    row has [session_id], [sex], [weight] and [age] overwritten, keeps its
    [participant_id], every other row (also a later row that matches) is
    left as it is and the number of rows is unchanged; or no row matches,
    and exactly one row holding the five fields of the record is
    appended. *)
Theorem merge_rows_updates_first_match_or_appends
    (r : record) (rows : list (gmap string pyvalue)) :
  (∃ before row after,
      rows = before ++ row :: after ∧
      Forall (λ x, ¬ matches_record r x) before ∧
      matches_record r row ∧
      merge_rows r rows = before ++ overwrite r row :: after ∧
      overwrite r row !! "session_id" = Some (PyStr (session_id r)) ∧
      overwrite r row !! "sex" = Some (sex r) ∧
      overwrite r row !! "weight" = Some (weight r) ∧
      overwrite r row !! "age" = Some (age r) ∧
      overwrite r row !! "participant_id" = row !! "participant_id" ∧
      length (merge_rows r rows) = length rows)
  ∨ (Forall (λ x, ¬ matches_record r x) rows ∧
     merge_rows r rows = rows ++ [new_row r] ∧
     new_row r !! "participant_id" = Some (PyStr (subject_id r)) ∧
     new_row r !! "session_id" = Some (PyStr (session_id r)) ∧
     new_row r !! "sex" = Some (sex r) ∧
     new_row r !! "weight" = Some (weight r) ∧
     new_row r !! "age" = Some (age r) ∧
     dom (new_row r) = list_to_set headers).
Proof.
  unfold merge_rows.
  destruct (update_loop_spec r rows)
    as [(before & row & after & -> & Hb & Hx & ->) | [Hall ->]]; simpl.
  - left. exists before, row, after.
    do 4 (split; [done|]).
    do 4 (split; [unfold overwrite; by simplify_map_eq|]).
    split; [|rewrite !length_app; reflexivity].
    unfold overwrite. by rewrite !lookup_insert_ne.
  - right. do 2 (split; [done|]).
    do 5 (split; [unfold new_row; by simplify_map_eq|]).
    unfold new_row, headers. simpl. rewrite !dom_insert_L, dom_empty_L.
    set_solver.
Qed.

End Merge.

(** ** The raw-copy step *)

Section Copy.
Import ReconstructMEG.

Lemma copy_files_lookup (d : string) (items : list (string * node))
    (fs0 : gmap string fnode) (p : string) :
  copy_files d items fs0 !! p =
  match fs0 !! p with
  | Some v => Some v
  | None => source_at d items p
  end.
Proof.
  unfold copy_files. revert fs0.
  induction items as [|[name [data|es]] rest IH]; intros fs0; simpl.
  - by destruct (fs0 !! p).
  - rewrite IH. destruct (String.eqb_spec (path_join d name) p) as [<-|Hne].
    + destruct (fs0 !! path_join d name) eqn:E; [by rewrite E|].
      by rewrite lookup_insert_eq.
    + destruct (fs0 !! path_join d name) eqn:E; [done|].
      by rewrite lookup_insert_ne.
  - apply IH.
Qed.

(** C7.  After the copy step a destination path holds what it held before
    when something was there, and otherwise the first file of the session
    folder that is copied to it (nothing when there is none); running the
    step a second time changes nothing. *)
Theorem copy_files_adds_only_missing_and_is_idempotent
    (raw_subj_ses_dir : string) (items : list (string * node))
    (fs0 : gmap string fnode) :
  (∀ p, copy_files raw_subj_ses_dir items fs0 !! p =
        match fs0 !! p with
        | Some v => Some v
        | None => source_at raw_subj_ses_dir items p
        end) ∧
  copy_files raw_subj_ses_dir items (copy_files raw_subj_ses_dir items fs0) =
  copy_files raw_subj_ses_dir items fs0.
Proof.
  split; [apply copy_files_lookup|].
  apply map_eq. intros p. rewrite !copy_files_lookup.
  destruct (fs0 !! p); [done|]. by destruct (source_at raw_subj_ses_dir items p).
Qed.

End Copy.

(** ** The pre-check *)

Section PreCheck.
Import ReconstructMEG.
Local Arguments subject_has_invalid_files : simpl never.



Lemma check_files_finds (expected : string) (es : list (string * node))
    (fname : string) (n : node) :
  (fname, n) ∈ es →
  is_checked_file fname n = true →
  id_in_stem expected fname = false →
  fst (check_files expected es) = true.
Proof.
  intros Hin Hc Hid. induction es as [|[name m] rest IH]; [by inversion Hin|].
  simpl. apply elem_of_cons in Hin as [[= <- <-]|Hin].
  - by rewrite Hc, Hid.
  - destruct (is_checked_file name m); [|by apply IH].
    destruct (id_in_stem expected name); simpl; [by apply IH | done].
Qed.

Lemma precheck_dir (subject name : string) (es rest : list (string * node)) :
  precheck subject ((name, Dir es) :: rest) =
  if fst (subject_has_invalid_files name es subject)
  then (true, snd (subject_has_invalid_files name es subject) ++
              [SkippingSubject subject name])
  else (fst (precheck subject rest),
        snd (subject_has_invalid_files name es subject) ++
        snd (precheck subject rest)).
Proof. reflexivity. Qed.

Lemma precheck_file (subject name data : string) (rest : list (string * node)) :
  precheck subject ((name, File data) :: rest) = precheck subject rest.
Proof. reflexivity. Qed.



Context (find_spec pip_install : string → bool)
        (read_raw_fif : string → node → bool)
        (write_raw_bids : string → node → BIDSPath → gmap string fnode →
                          gmap string fnode * bool)
        (extract_subject_info : list string → gmap string fnode →
                                gmap string fnode * bool).


End PreCheck.


(** ** The subject ID after the conversion loop *)

Section ConversionSubject.
Import ReconstructMEG.



Context (find_spec pip_install : string → bool)
        (read_raw_fif : string → node → bool)
        (write_raw_bids : string → node → BIDSPath → gmap string fnode →
                          gmap string fnode * bool)
        (extract_subject_info : list string → gmap string fnode →
                                gmap string fnode * bool).

Lemma convert_file_subject (session_id reconstructed_path subject_id : string)
    (st : state) (f : string * node) :
  fst (convert_file read_raw_fif write_raw_bids session_id reconstructed_path
                    (subject_id, st) f) =
  default subject_id (loaded_and_parsed read_raw_fif f).
Proof.
  destruct f as [name n]. unfold convert_file, loaded_and_parsed. simpl.
  destruct (read_raw_fif name n); simpl; [|done].
  destruct (match_filename name) as [[sid trs]|]; simpl; [|done].
  destruct (split_task_run trs) as [[task run]|]; simpl; [|done].
  destruct (write_raw_bids _ _ _ _) as [fs' ok]. by destruct ok.
Qed.

Lemma convert_loop_subject (session_id reconstructed_path : string)
    (meg_files : list (string * node)) (subject_id : string) (st : state) :
  fst (foldl (convert_file read_raw_fif write_raw_bids session_id reconstructed_path)
             (subject_id, st) meg_files) =
  default subject_id (last_parsed_subject read_raw_fif meg_files).
Proof.
  unfold last_parsed_subject. revert subject_id st.
  induction meg_files as [|f rest IH]; intros subject_id st; [done|].
  change (foldl ?F ?a (f :: rest)) with (foldl F (F a f) rest).
  destruct (convert_file read_raw_fif write_raw_bids session_id
                         reconstructed_path (subject_id, st) f)
    as [sid' st'] eqn:E.
  rewrite IH. pose proof (convert_file_subject session_id reconstructed_path
                            subject_id st f) as Hf.
  rewrite E in Hf. simpl in Hf. subst sid'.
  change (omap ?g (f :: rest)) with
    (match g f with Some y => y :: omap g rest | None => omap g rest end).
  destruct (loaded_and_parsed read_raw_fif f) as [t|]; simpl; [|done].
  rewrite last_cons.
  by destruct (last (omap (loaded_and_parsed read_raw_fif) rest)).
Qed.

Lemma convert_subject (session_id reconstructed_path : string)
    (meg_files : list (string * node)) (subject_id : string) (st : state) :
  fst (convert read_raw_fif write_raw_bids true session_id reconstructed_path
               meg_files subject_id st) =
  default subject_id (last_parsed_subject read_raw_fif meg_files).
Proof.
  unfold convert.
  pose proof (convert_loop_subject session_id reconstructed_path meg_files
                subject_id st) as H.
  destruct (foldl _ _ _) as [sid st']. simpl in H. subst sid.
  by destruct (failed_bids_files st').
Qed.


End ConversionSubject.



(** ** The matcher *)

Section Matcher.

Lemma head_app_some {A} (l1 l2 : list A) (x : A) :
  head l1 = Some x → head (l1 ++ l2) = Some x.
Proof. by destruct l1. Qed.

Lemma run_seq_head (r1 r2 : re) (s s1 : string) (cs c1 : caps) (x : string * caps) :
  head (run r1 s cs) = Some (s1, c1) →
  head (run r2 s1 c1) = Some x →
  head (run (Seq r1 r2) s cs) = Some x.
Proof.
  simpl. destruct (run r1 s cs) as [|y l]; [done|]. intros [= ->] H.
  simpl. by apply head_app_some.
Qed.

Lemma run_chr (p : ascii → bool) (c : ascii) (s : string) (cs : caps) :
  p c = true → run (Chr p) (String c s) cs = [(s, cs)].
Proof. simpl. by intros ->. Qed.

Lemma run_lit (w s : string) (cs : caps) :
  run (Lit w) (w +:+ s) cs = [(s, cs)].
Proof.
  revert s. induction w as [|c w IH]; intros s; [done|].
  rewrite app_cons. simpl. rewrite Ascii.eqb_refl. simpl. by rewrite IH.
Qed.

Lemma star_rests_head (p : ascii → bool) (w rest : string) :
  forall_str p w = true → not_starts p rest →
  head (star_rests p (w +:+ rest)) = Some rest.
Proof.
  intros Hw Hr. induction w as [|c w IH].
  - rewrite app_nil_l. destruct rest as [|c r]; [done|]. simpl in *. by rewrite Hr.
  - simpl in Hw. apply andb_true_iff in Hw as [Hc Hw].
    rewrite app_cons. simpl. rewrite Hc. apply head_app_some. by apply IH.
Qed.

Lemma run_star_head (p : ascii → bool) (w rest : string) (cs : caps) :
  forall_str p w = true → not_starts p rest →
  head (run (Star p) (w +:+ rest) cs) = Some (rest, cs).
Proof.
  intros Hw Hr. simpl. pose proof (star_rests_head p w rest Hw Hr) as H.
  destruct (star_rests p (w +:+ rest)); [done|]. simpl in *. by injection H as ->.
Qed.

Lemma run_plus_head (p : ascii → bool) (w rest : string) (cs : caps) :
  w ≠ "" → forall_str p w = true → not_starts p rest →
  head (run (Plus p) (w +:+ rest) cs) = Some (rest, cs).
Proof.
  intros Hne Hw Hr. destruct w as [|c w]; [done|].
  simpl in Hw. apply andb_true_iff in Hw as [Hc Hw].
  rewrite app_cons. unfold Plus.
  apply (run_seq_head _ _ _ (w +:+ rest) _ cs).
  - by rewrite run_chr.
  - by apply run_star_head.
Qed.

Lemma take_str_app (w s : string) :
  take_str (String.length (w +:+ s) - String.length s) (w +:+ s) = w.
Proof.
  rewrite length_app_str.
  replace (String.length w + String.length s - String.length s)%nat
    with (String.length w) by lia.
  induction w as [|c w IH]; [by destruct s|].
  rewrite app_cons. simpl. by rewrite IH.
Qed.

Lemma run_group_head (n : nat) (r : re) (w s' : string) (cs cs' : caps) :
  head (run r (w +:+ s') cs) = Some (s', cs') →
  head (run (Group n r) (w +:+ s') cs) = Some (s', (n, w) :: cs').
Proof.
  simpl. destruct (run r (w +:+ s') cs) as [|y l]; [done|]. intros [= ->].
  simpl. by rewrite take_str_app.
Qed.

End Matcher.

(** ** Filename parsing *)

Section FilenameParsing.
Import ReconstructMEG.

Lemma sep_not_alnum (c : ascii) : is_sep_c c = true → is_alnum_lower_c c = false.
Proof. destruct c as [[] [] [] [] [] [] [] []]; vm_compute; done. Qed.
Lemma sep_not_alpha (c : ascii) : is_sep_c c = true → is_alpha_lower_c c = false.
Proof. destruct c as [[] [] [] [] [] [] [] []]; vm_compute; done. Qed.
Lemma sep_not_digit (c : ascii) : is_sep_c c = true → is_digit_c c = false.
Proof. destruct c as [[] [] [] [] [] [] [] []]; vm_compute; done. Qed.
Lemma digit_not_alpha (c : ascii) : is_digit_c c = true → is_alpha_lower_c c = false.
Proof. destruct c as [[] [] [] [] [] [] [] []]; vm_compute; done. Qed.
Lemma digit_not_underscore (c : ascii) : is_digit_c c = true → Ascii.eqb c "_" = false.
Proof. destruct c as [[] [] [] [] [] [] [] []]; vm_compute; done. Qed.
Lemma digit_not_space (c : ascii) : is_digit_c c = true → is_space_c c = false.
Proof. destruct c as [[] [] [] [] [] [] [] []]; vm_compute; done. Qed.

Lemma lstrip_digits (s : string) : forall_str is_digit_c s = true → lstrip s = s.
Proof.
  destruct s as [|c s]; [done|]. simpl. intros [Hc _]%andb_true_iff.
  by rewrite (digit_not_space c Hc).
Qed.

Lemma rstrip_digits (s : string) : forall_str is_digit_c s = true → rstrip s = s.
Proof.
  induction s as [|c s IH]; [done|]. simpl. intros [Hc Hs]%andb_true_iff.
  rewrite (IH Hs). destruct s; [by rewrite (digit_not_space c Hc) | done].
Qed.

Lemma digits_us_digits (acc : N) (s : string) :
  forall_str is_digit_c s = true →
  digits_us acc true s = Some (decimal_go acc s).
Proof.
  revert acc. induction s as [|c s IH]; intros acc; [done|].
  simpl. intros [Hc Hs]%andb_true_iff.
  rewrite (digit_not_underscore c Hc). unfold digit_val. rewrite Hc. by apply IH.
Qed.

(** [int()] of a non-empty string of digits is the number it stands for. *)
Lemma py_int_digits (s : string) :
  s ≠ "" → forall_str is_digit_c s = true → py_int s = Some (Z.of_N (decimal s)).
Proof.
  intros Hne Hs. unfold py_int, strip. rewrite (rstrip_digits s Hs), (lstrip_digits s Hs).
  destruct s as [|c s]; [done|]. pose proof Hs as Hs'.
  simpl in Hs. apply andb_true_iff in Hs as [Hc Hs].
  assert (Hd : digits_us 0 false (String c s) = Some (decimal (String c s))).
  { simpl. rewrite (digit_not_underscore c Hc). unfold digit_val. rewrite Hc.
    by apply digits_us_digits. }
  destruct c as [[] [] [] [] [] [] [] []]; try discriminate Hc; by rewrite Hd.
Qed.

Lemma prefix_sub_app (subj t : string) (c : ascii) :
  String.prefix "sub" subj = false → is_sep_c c = true →
  String.prefix "sub" (subj +:+ String c t) = false.
Proof.
  intros Hp Hc.
  assert (Hs : ∀ x : ascii, is_alnum_lower_c x = true → Ascii.eqb x c = false).
  { intros x Hx. apply Ascii.eqb_neq. intros ->. by rewrite (sep_not_alnum c Hc) in Hx. }
  change "sub" with (String "s" (String "u" (String "b" ""))) in *.
  destruct subj as [|a [|b [|d subj]]]; rewrite ?app_cons, ?app_nil_l.
  - by rewrite prefix_cons, (Hs "s"%char).
  - rewrite !prefix_cons, (Hs "u"%char) by done. by destruct (Ascii.eqb "s" a).
  - rewrite !prefix_cons, (Hs "b"%char) by done.
    by destruct (Ascii.eqb "s" a), (Ascii.eqb "u" b).
  - rewrite !prefix_cons, prefix_nil in *. done.
Qed.

Lemma run_lit_fails (w s : string) (cs : caps) :
  String.prefix w s = false → run (Lit w) s cs = [].
Proof.
  revert s. induction w as [|c w IH]; intros s; [by rewrite prefix_nil|].
  destruct s as [|d s]; [done|]. rewrite prefix_cons. cbn [Lit run Lit_c].
  destruct (Ascii.eqb c d); [|done]. simpl. intros H. by rewrite IH.
Qed.

(** The optional prefix of the pattern consumes a "sub-" or "sub_" that is
    there, and nothing when the name does not begin with "sub". *)
Lemma run_prefix_head (q : fname_parts) (t : string) (cs : caps) :
  well_formed q →
  (fp_prefix q = "" → String.prefix "sub" (fp_subject q) = false) →
  head (run (Opt (Seq (Lit "sub") (Opt (Chr is_sep_c))))
            (fp_prefix q +:+ fp_subject q +:+ String (fp_sep1 q) t) cs) =
  Some (fp_subject q +:+ String (fp_sep1 q) t, cs).
Proof.
  intros (Hpre & _ & _ & Hsep & _) Hsub.
  destruct Hpre as [E | [E | E]]; rewrite E.
  - rewrite app_nil_l. cbn [run].
    rewrite (run_lit_fails "sub" _ cs (prefix_sub_app _ _ _ (Hsub E) Hsep)).
    reflexivity.
  - reflexivity.
  - reflexivity.
Qed.

Lemma not_starts_digits_sep (p : ascii → bool) (ds t : string) (c : ascii) :
  (∀ x, is_digit_c x = true → p x = false) → p c = false →
  forall_str is_digit_c ds = true →
  not_starts p (ds +:+ String c t).
Proof.
  intros Hd Hc Hds. destruct ds as [|x ds]; [by rewrite app_nil_l|].
  rewrite app_cons. simpl in *. apply andb_true_iff in Hds as [Hx _]. by apply Hd.
Qed.

Lemma match_fname_assemble (q : fname_parts) :
  well_formed q →
  (fp_prefix q = "" → String.prefix "sub" (fp_subject q) = false) →
  match_fname (assemble q) = Some (upper (fp_subject q), fp_task q +:+ fp_digits q).
Proof.
  intros Hwf Hsub. pose proof Hwf as (_ & Hs0 & Hs & Hsep1 & Ht0 & Ht & Hd & Hsep2).
  assert (H : head (run pattern (assemble q) []) =
              Some (fp_rest q, [(2%nat, fp_task q +:+ fp_digits q);
                                (1%nat, fp_subject q)])).
  2: { unfold match_fname, rmatch. by rewrite H. }
  unfold assemble, pattern.
  eapply run_seq_head; [by apply run_prefix_head|].
  eapply run_seq_head.
  { apply run_group_head, run_plus_head; [done..|]. simpl. by apply sep_not_alnum. }
  eapply run_seq_head; [by rewrite run_chr|].
  rewrite <- app_assoc_str.
  eapply run_seq_head.
  { apply run_group_head. rewrite app_assoc_str. eapply run_seq_head.
    - apply run_plus_head; [done..|].
      apply not_starts_digits_sep; [apply digit_not_alpha | by apply sep_not_alpha | done].
    - apply run_star_head; [done|]. simpl. by apply sep_not_digit. }
  eapply run_seq_head; [by rewrite run_chr|].
  by rewrite run_lit.
Qed.

Lemma split_task_run_spec (task ds : string) :
  task ≠ "" → forall_str is_alpha_lower_c task = true →
  forall_str is_digit_c ds = true →
  split_task_run (task +:+ ds) =
  Some (task, match ds with
              | EmptyString => None
              | _ => Some (Z.of_N (decimal ds))
              end).
Proof.
  intros Ht0 Ht Hd.
  assert (H : head (run task_pattern (task +:+ ds) []) =
              Some ("", [(2%nat, ds); (1%nat, task)])).
  { unfold task_pattern. eapply run_seq_head.
    - apply run_group_head, run_plus_head; [done..|].
      destruct ds as [|c ds]; [done|]. simpl in *.
      apply andb_true_iff in Hd as [Hc _]. by apply digit_not_alpha.
    - rewrite <- (app_nil_r ds) at 1. apply run_group_head.
      by apply run_star_head. }
  unfold split_task_run, rmatch. rewrite H. simpl group.
  destruct ds as [|c ds]; [reflexivity|].
  cbn [String.eqb]. by rewrite py_int_digits.
Qed.

(** C6, as the code has it.  A name built by the grammar parses to the
    upper-cased subject token, the task, and the run its digits stand for
    (no run when there are no digits), provided that a name without the
    "sub" prefix does not have a subject token that itself begins with
    "sub"; and "sub-brs0170_task12-raw.fif" parses to BRS0170, task, 12. *)
Theorem parse_fname_follows_grammar :
  (∀ q : fname_parts,
      well_formed q →
      (fp_prefix q = "" → String.prefix "sub" (fp_subject q) = false) →
      parse_fname (assemble q) = Some (parts_meaning q)) ∧
  parse_filename "sub-brs0170_task12-raw.fif" =
    Some {| p_subject := "BRS0170"; p_task := "task"; p_run := Some 12 |}.
Proof.
  split; [|reflexivity].
  intros q Hwf Hsub. unfold parse_fname. rewrite (match_fname_assemble q Hwf Hsub).
  destruct Hwf as (_ & _ & _ & _ & Ht0 & Ht & Hd & _).
  rewrite (split_task_run_spec _ _ Ht0 Ht Hd). unfold parts_meaning.
  by destruct (fp_digits q).
Qed.

End FilenameParsing.

Lemma parse_fname_follows_grammar_witness :
  ReconstructMEG.parse_fname
    (ReconstructMEG.assemble
       {| ReconstructMEG.fp_prefix := "sub-"; ReconstructMEG.fp_subject := "brs0170";
          ReconstructMEG.fp_sep1 := "_"; ReconstructMEG.fp_task := "task";
          ReconstructMEG.fp_digits := "12"; ReconstructMEG.fp_sep2 := "-";
          ReconstructMEG.fp_rest := "" |}) =
  Some (ReconstructMEG.parts_meaning
       {| ReconstructMEG.fp_prefix := "sub-"; ReconstructMEG.fp_subject := "brs0170";
          ReconstructMEG.fp_sep1 := "_"; ReconstructMEG.fp_task := "task";
          ReconstructMEG.fp_digits := "12"; ReconstructMEG.fp_sep2 := "-";
          ReconstructMEG.fp_rest := "" |}).
Proof.
  apply (proj1 parse_fname_follows_grammar).
  - unfold ReconstructMEG.well_formed. simpl.
    split; [right; left; reflexivity|].
    split; [discriminate|]. split; [reflexivity|]. split; [reflexivity|].
    split; [discriminate|]. split; [reflexivity|]. split; reflexivity.
  - simpl. discriminate.
Defined.

(** The claim C6 as it was written fails for a name without the prefix whose
    subject token begins with "sub": the grammar reads "subx_rest_raw" as
    subject "subx", task "rest", no run, but the pattern takes "sub" for the
    prefix, whose separator is optional in it, and the subject parsed is X. *)
Lemma subject_token_beginning_with_sub_is_cut :
  ReconstructMEG.well_formed
    {| ReconstructMEG.fp_prefix := ""; ReconstructMEG.fp_subject := "subx";
       ReconstructMEG.fp_sep1 := "_"; ReconstructMEG.fp_task := "rest";
       ReconstructMEG.fp_digits := ""; ReconstructMEG.fp_sep2 := "_";
       ReconstructMEG.fp_rest := "" |} ∧
  ReconstructMEG.fname_of "subx_rest_raw.fif" =
  ReconstructMEG.assemble
    {| ReconstructMEG.fp_prefix := ""; ReconstructMEG.fp_subject := "subx";
       ReconstructMEG.fp_sep1 := "_"; ReconstructMEG.fp_task := "rest";
       ReconstructMEG.fp_digits := ""; ReconstructMEG.fp_sep2 := "_";
       ReconstructMEG.fp_rest := "" |} ∧
  ReconstructMEG.parse_filename "subx_rest_raw.fif" =
    Some {| ReconstructMEG.p_subject := "X"; ReconstructMEG.p_task := "rest";
            ReconstructMEG.p_run := None |} ∧
  ReconstructMEG.parse_filename "subx_rest_raw.fif" ≠
    Some (ReconstructMEG.parts_meaning
      {| ReconstructMEG.fp_prefix := ""; ReconstructMEG.fp_subject := "subx";
         ReconstructMEG.fp_sep1 := "_"; ReconstructMEG.fp_task := "rest";
         ReconstructMEG.fp_digits := ""; ReconstructMEG.fp_sep2 := "_";
         ReconstructMEG.fp_rest := "" |}).
Proof.
  split.
  { unfold ReconstructMEG.well_formed. simpl.
    split; [left; reflexivity|].
    split; [discriminate|]. split; [reflexivity|]. split; [reflexivity|].
    split; [discriminate|]. split; [reflexivity|]. split; reflexivity. }
  split; [reflexivity|]. split; [reflexivity|].
  vm_compute. discriminate.
Qed.

(** ** DICOM field extraction *)

Section Extraction.
Import ExtractSubjectInfo.

Lemma digit_of_is_digit (k : Z) : 0 ≤ k ≤ 9 → is_digit_c (digit_of k) = true.
Proof.
  intros H.
  assert (k = 0 ∨ k = 1 ∨ k = 2 ∨ k = 3 ∨ k = 4 ∨ k = 5 ∨ k = 6 ∨ k = 7 ∨
          k = 8 ∨ k = 9) as Hk by lia.
  repeat (destruct Hk as [-> | Hk]; [reflexivity|]). by subst.
Qed.

Lemma digit_of_value (k : Z) :
  0 ≤ k ≤ 9 → (N_of_ascii (digit_of k) - 48)%N = Z.to_N k.
Proof.
  intros H.
  assert (k = 0 ∨ k = 1 ∨ k = 2 ∨ k = 3 ∨ k = 4 ∨ k = 5 ∨ k = 6 ∨ k = 7 ∨
          k = 8 ∨ k = 9) as Hk by lia.
  repeat (destruct Hk as [-> | Hk]; [reflexivity|]). by subst.
Qed.

Lemma py_int_digits4 (y : Z) : 0 ≤ y ≤ 9999 → py_int (digits4 y) = Some y.
Proof.
  intros H. rewrite py_int_digits; [|done|].
  - f_equal. unfold decimal, digits4. cbn [decimal_go].
    rewrite !digit_of_value by (Z.div_mod_to_equations; lia).
    Z.div_mod_to_equations. lia.
  - unfold digits4. cbn [forall_str].
    rewrite !digit_of_is_digit by (Z.div_mod_to_equations; lia). reflexivity.
Qed.

Lemma run_re_Y (y : Z) (rest : string) (cs : caps) :
  0 ≤ y ≤ 9999 →
  run re_Y (digits4 y +:+ rest) cs = [(rest, cs)].
Proof.
  intros H. unfold re_Y, digits4. rewrite !app_cons, app_nil_l. cbn [run].
  rewrite (digit_of_is_digit (y / 1000)) by (Z.div_mod_to_equations; lia).
  cbn [flat_map fst snd run app].
  rewrite (digit_of_is_digit (y / 100 mod 10)) by (Z.div_mod_to_equations; lia).
  cbn [flat_map fst snd run app].
  rewrite (digit_of_is_digit (y / 10 mod 10)) by (Z.div_mod_to_equations; lia).
  cbn [flat_map fst snd run app].
  rewrite (digit_of_is_digit (y mod 10)) by (Z.div_mod_to_equations; lia).
  reflexivity.
Qed.

Lemma run_re_m (m : Z) (rest : string) (cs : caps) :
  1 ≤ m ≤ 12 →
  head (run re_m (digits2 m +:+ rest) cs) = Some (rest, cs) ∧
  py_int (digits2 m) = Some m.
Proof.
  intros H.
  assert (m = 1 ∨ m = 2 ∨ m = 3 ∨ m = 4 ∨ m = 5 ∨ m = 6 ∨ m = 7 ∨ m = 8 ∨
          m = 9 ∨ m = 10 ∨ m = 11 ∨ m = 12) as Hm by lia.
  repeat (destruct Hm as [-> | Hm]; [split; reflexivity|]). subst. split; reflexivity.
Qed.

Lemma run_re_d (d : Z) (rest : string) (cs : caps) :
  1 ≤ d ≤ 31 →
  head (run re_d (digits2 d +:+ rest) cs) = Some (rest, cs) ∧
  py_int (digits2 d) = Some d.
Proof.
  intros H.
  assert (d = 1 ∨ d = 2 ∨ d = 3 ∨ d = 4 ∨ d = 5 ∨ d = 6 ∨ d = 7 ∨ d = 8 ∨
          d = 9 ∨ d = 10 ∨ d = 11 ∨ d = 12 ∨ d = 13 ∨ d = 14 ∨ d = 15 ∨
          d = 16 ∨ d = 17 ∨ d = 18 ∨ d = 19 ∨ d = 20 ∨ d = 21 ∨ d = 22 ∨
          d = 23 ∨ d = 24 ∨ d = 25 ∨ d = 26 ∨ d = 27 ∨ d = 28 ∨ d = 29 ∨
          d = 30 ∨ d = 31) as Hd by lia.
  repeat (destruct Hd as [-> | Hd]; [split; reflexivity|]). subst. split; reflexivity.
Qed.

Lemma days_in_month_le (y m : Z) : days_in_month y m ≤ 31.
Proof.
  unfold days_in_month.
  destruct (m =? 2); [by destruct (is_leap y)|].
  by destruct ((m =? 4) || (m =? 6) || (m =? 9) || (m =? 11)).
Qed.

(** A calendar date written with eight digits parses to itself. *)
Lemma strptime_fmt_date (y m d : Z) :
  valid_date y m d = true →
  strptime_Ymd (fmt_date y m d) = Some {| year := y; month := m; day := d |}.
Proof.
  intros Hv. pose proof Hv as Hv'. unfold valid_date in Hv'.
  repeat (apply andb_true_iff in Hv' as [Hv' ?]).
  pose proof (days_in_month_le y m).
  assert (Hy : 0 ≤ y ≤ 9999) by lia.
  assert (Hm : 1 ≤ m ≤ 12) by lia.
  assert (Hd : 1 ≤ d ≤ 31) by lia.
  assert (Hrun : head (run re_Ymd (fmt_date y m d) []) =
                 Some ("", [(3%nat, digits2 d); (2%nat, digits2 m); (1%nat, digits4 y)])).
  { unfold re_Ymd, fmt_date. eapply run_seq_head.
    - apply run_group_head. by rewrite run_re_Y.
    - eapply run_seq_head.
      + apply run_group_head. by apply run_re_m.
      + rewrite <- (app_nil_r (digits2 d)) at 1. apply run_group_head.
        by apply run_re_d. }
  unfold strptime_Ymd, rmatch. rewrite Hrun. cbn [String.eqb negb group Nat.eqb].
  rewrite (py_int_digits4 y Hy).
  rewrite (proj2 (run_re_m m "" [] Hm)), (proj2 (run_re_d d "" [] Hd)).
  by rewrite Hv.
Qed.

(** *** [str(int(s))] removes leading zeros *)

Lemma decimal_go_pos (u : Decimal.uint) (acc : positive) :
  decimal_go (Npos acc) (NilEmpty.string_of_uint u) = Npos (Pos.of_uint_acc u acc).
Proof.
  revert acc. induction u; intros acc; simpl; [reflexivity|..];
    rewrite <- IHu; f_equal; lia.
Qed.

Lemma decimal_of_uint (u : Decimal.uint) :
  decimal (NilEmpty.string_of_uint u) = N.of_uint u.
Proof.
  unfold decimal, N.of_uint.
  induction u; simpl; [reflexivity | exact IHu | ..]; apply decimal_go_pos.
Qed.

Lemma digits_are_uint (s : string) :
  forall_str is_digit_c s = true → ∃ u, s = NilEmpty.string_of_uint u.
Proof.
  induction s as [|c s IH]; [by exists Decimal.Nil|].
  simpl. intros [Hc Hs]%andb_true_iff. destruct (IH Hs) as [u ->].
  destruct c as [[] [] [] [] [] [] [] []]; try discriminate Hc;
    first [ by exists (Decimal.D0 u) | by exists (Decimal.D1 u)
          | by exists (Decimal.D2 u) | by exists (Decimal.D3 u)
          | by exists (Decimal.D4 u) | by exists (Decimal.D5 u)
          | by exists (Decimal.D6 u) | by exists (Decimal.D7 u)
          | by exists (Decimal.D8 u) | by exists (Decimal.D9 u) ].
Qed.

Lemma string_of_nzhead (u : Decimal.uint) :
  NilEmpty.string_of_uint (Decimal.nzhead u) = drop_zeros (NilEmpty.string_of_uint u).
Proof. induction u; simpl; try reflexivity. exact IHu. Qed.

Lemma string_of_unorm (u : Decimal.uint) :
  NilEmpty.string_of_uint (Decimal.unorm u) =
  strip_leading_zeros (NilEmpty.string_of_uint u).
Proof.
  unfold strip_leading_zeros, Decimal.unorm. rewrite <- string_of_nzhead.
  by destruct (Decimal.nzhead u).
Qed.

(** For a non-empty string of digits, [str(int(s))] is [s] without its
    leading zeros. *)
Lemma str_int_of_digits (s : string) :
  s ≠ "" → forall_str is_digit_c s = true →
  ∃ n, py_int s = Some n ∧ str_int n = strip_leading_zeros s.
Proof.
  intros Hne Hs. exists (Z.of_N (decimal s)). split; [by apply py_int_digits|].
  unfold str_int. destruct (Z.ltb_spec (Z.of_N (decimal s)) 0) as [Hlt|_]; [lia|].
  rewrite N2Z.id. destruct (digits_are_uint s Hs) as [u ->].
  unfold str_N. by rewrite decimal_of_uint, DecimalN.Unsigned.to_of, string_of_unorm.
Qed.

(** *** The age *)

Lemma last_c_none (s : string) : last_c s = None → s = "".
Proof.
  induction s as [|c s IH]; [done|]. simpl. destruct s; [done|]. intros H.
  by specialize (IH H).
Qed.

Lemma explicit_age_spec (v : pyvalue) :
  py_str v ≠ "" →
  explicit_age v =
  Returns (match py_int (without_unit (py_str v)) with
           | Some n => str_int n
           | None => without_unit (py_str v)
           end).
Proof.
  intros Hne. unfold explicit_age, without_unit.
  destruct (last_c (py_str v)) as [c|] eqn:E; [|by apply last_c_none in E].
  by destruct (py_int _).
Qed.

Lemma age_from_dates_na (b s : pyvalue) :
  ¬ parses b ∨ ¬ parses s → age_from_dates b s = na.
Proof.
  intros H. unfold age_from_dates.
  destruct b as [bs| |]; try done. destruct (strptime_Ymd bs) as [dob|] eqn:Eb; [|done].
  destruct s as [ss| |]; try done. destruct (strptime_Ymd ss) as [sd|] eqn:Es; [|done].
  destruct H as [H|H]; exfalso; apply H; unfold parses; eauto.
Qed.

Context (dcmread : string → option (gmap tag DataElement)).

Lemma extract_fields_no_age (dicom_file : string) (dcm : gmap tag DataElement) :
  dcmread dicom_file = Some dcm → age_absent_or_empty dcm →
  age_of (extract_fields dcmread dicom_file) =
    Some (match dcm !! TAG_STUDY_DATE, dcm !! TAG_PATIENT_BIRTH_DATE with
          | Some sd, Some bd =>
              if truth sd && truth bd
              then age_from_dates (value bd) (value sd) else na
          | _, _ => na
          end).
Proof.
  intros Hread Hage. unfold extract_fields. rewrite Hread. cbv zeta.
  unfold age_absent_or_empty in Hage.
  destruct (dcm !! TAG_PATIENT_AGE) as [el|].
  - assert (truth el && negb (py_eq_str (value el) "") = false) as ->.
    { destruct Hage as [-> | ->]; [done|]. simpl. apply andb_false_r. }
    destruct (dcm !! TAG_STUDY_DATE), (dcm !! TAG_PATIENT_BIRTH_DATE); try done.
    by destruct (truth _ && truth _).
  - destruct (dcm !! TAG_STUDY_DATE), (dcm !! TAG_PATIENT_BIRTH_DATE); try done.
    by destruct (truth _ && truth _).
Qed.

(** C2.  The age that extraction returns.  (a) For an age element that is
    present and not empty, the string of its value loses a trailing Y, M or
    D, and the result is the decimal form of [int()] of the rest, or the
    rest as it is when [int()] fails; for a rest made of digits that is the
    rest without its leading zeros.  (b) When the age is absent or empty,
    for a birth date and a study date that are calendar dates in the
    eight-digit format, the age is the difference of the years, less one
    exactly when the study's (month, day) is below the birth's.  (c) When
    the age is absent or empty, the age returned is "n/a" if a date element
    is missing or its value does not parse. *)
Theorem extract_fields_age (dicom_file : string) (dcm : gmap tag DataElement) :
  dcmread dicom_file = Some dcm →
  (∀ el,
      dcm !! TAG_PATIENT_AGE = Some el → truth el = true →
      py_eq_str (value el) "" = false → py_str (value el) ≠ "" →
      age_of (extract_fields dcmread dicom_file) =
        Some (match py_int (without_unit (py_str (value el))) with
              | Some n => str_int n
              | None => without_unit (py_str (value el))
              end) ∧
      (without_unit (py_str (value el)) ≠ "" →
       forall_str is_digit_c (without_unit (py_str (value el))) = true →
       age_of (extract_fields dcmread dicom_file) =
         Some (strip_leading_zeros (without_unit (py_str (value el)))))) ∧
  (∀ bel sel by_ bm bd sy sm sd,
      age_absent_or_empty dcm →
      dcm !! TAG_PATIENT_BIRTH_DATE = Some bel → truth bel = true →
      dcm !! TAG_STUDY_DATE = Some sel → truth sel = true →
      value bel = PyStr (fmt_date by_ bm bd) → valid_date by_ bm bd = true →
      value sel = PyStr (fmt_date sy sm sd) → valid_date sy sm sd = true →
      age_of (extract_fields dcmread dicom_file) =
        Some (str_int (sy - by_ -
                       (if (sm <? bm) || ((sm =? bm) && (sd <? bd)) then 1 else 0)))) ∧
  (age_absent_or_empty dcm →
   (dcm !! TAG_PATIENT_BIRTH_DATE = None ∨ dcm !! TAG_STUDY_DATE = None ∨
    (∃ bel, dcm !! TAG_PATIENT_BIRTH_DATE = Some bel ∧ ¬ parses (value bel)) ∨
    (∃ sel, dcm !! TAG_STUDY_DATE = Some sel ∧ ¬ parses (value sel))) →
   age_of (extract_fields dcmread dicom_file) = Some na).
Proof.
  intros Hread. split; [|split].
  - unfold extract_fields. rewrite Hread. cbv zeta.
    intros el Hel Ht Hv Hs. rewrite Hel, Ht, Hv. cbn [andb negb].
    rewrite (explicit_age_spec _ Hs). cbn [age_of]. split; [reflexivity|].
    intros Hne Hd. destruct (str_int_of_digits _ Hne Hd) as (n & -> & ->). reflexivity.
  - intros bel sel by_ bm bd sy sm sd Hage Hb Htb Hs Hts Hvb Hdb Hvs Hds.
    rewrite (extract_fields_no_age _ _ Hread Hage), Hb, Hs, Htb, Hts, Hvb, Hvs.
    cbn [andb]. unfold age_from_dates.
    by rewrite (strptime_fmt_date _ _ _ Hdb), (strptime_fmt_date _ _ _ Hds).
  - intros Hage H. rewrite (extract_fields_no_age _ _ Hread Hage).
    destruct (dcm !! TAG_STUDY_DATE) as [sel|] eqn:Es; [|done].
    destruct (dcm !! TAG_PATIENT_BIRTH_DATE) as [bel|] eqn:Eb; [|done].
    destruct (truth sel && truth bel); [|done]. f_equal.
    apply age_from_dates_na.
    destruct H as [H | [H | [(b & [= <-] & H) | (x & [= <-] & H)]]]; try done; auto.
Qed.


End Extraction.

Lemma extract_fields_age_witness :
  ExtractSubjectInfo.age_of
    (ExtractSubjectInfo.extract_fields (Examples.reads (Examples.age_only "034Y")) "1.dcm")
    = Some "34" ∧
  ExtractSubjectInfo.age_of
    (ExtractSubjectInfo.extract_fields
       (Examples.reads (ExtractSubjectInfo.dates_only "20000315" "20240314")) "1.dcm")
    = Some "23" ∧
  ExtractSubjectInfo.age_of
    (ExtractSubjectInfo.extract_fields
       (Examples.reads (ExtractSubjectInfo.empty_age_and_dates "20000315" "20240315"))
       "1.dcm")
    = Some "24" ∧
  ExtractSubjectInfo.age_of
    (ExtractSubjectInfo.extract_fields
       (Examples.reads (ExtractSubjectInfo.dates_only "2000-03-15" "20240315")) "1.dcm")
    = Some "n/a".
Proof.
  split; [|split; [|split]].
  - pose proof (proj1 (extract_fields_age
        (Examples.reads (Examples.age_only "034Y")) "1.dcm"
        (Examples.age_only "034Y") eq_refl)) as H.
    specialize (H {| ExtractSubjectInfo.value := ExtractSubjectInfo.PyStr "034Y";
                     ExtractSubjectInfo.truth := true |}).
    destruct H as [_ H]; [reflexivity | reflexivity | reflexivity | discriminate |].
    apply H; [discriminate | reflexivity].
  - apply (proj1 (proj2 (extract_fields_age
        (Examples.reads (ExtractSubjectInfo.dates_only "20000315" "20240314")) "1.dcm"
        (ExtractSubjectInfo.dates_only "20000315" "20240314") eq_refl))
        {| ExtractSubjectInfo.value := ExtractSubjectInfo.PyStr "20000315";
           ExtractSubjectInfo.truth := true |}
        {| ExtractSubjectInfo.value := ExtractSubjectInfo.PyStr "20240314";
           ExtractSubjectInfo.truth := true |}
        2000 3 15 2024 3 14); reflexivity.
  - apply (proj1 (proj2 (extract_fields_age
        (Examples.reads (ExtractSubjectInfo.empty_age_and_dates "20000315" "20240315"))
        "1.dcm"
        (ExtractSubjectInfo.empty_age_and_dates "20000315" "20240315") eq_refl))
        {| ExtractSubjectInfo.value := ExtractSubjectInfo.PyStr "20000315";
           ExtractSubjectInfo.truth := true |}
        {| ExtractSubjectInfo.value := ExtractSubjectInfo.PyStr "20240315";
           ExtractSubjectInfo.truth := true |}
        2000 3 15 2024 3 15); try reflexivity. right. reflexivity.
  - apply (proj2 (proj2 (extract_fields_age
        (Examples.reads (ExtractSubjectInfo.dates_only "2000-03-15" "20240315")) "1.dcm"
        (ExtractSubjectInfo.dates_only "2000-03-15" "20240315") eq_refl))).
    + exact I.
    + right. right. left.
      exists {| ExtractSubjectInfo.value := ExtractSubjectInfo.PyStr "2000-03-15";
                ExtractSubjectInfo.truth := true |}.
      split; [reflexivity|]. intros (s & d & [= <-] & H). vm_compute in H. discriminate.
Defined.


(** ** The table file *)

Section TableFile.
Import ExtractSubjectInfo.

(** *** Writing *)

Lemma clean_row_lookup (row : gmap string pyvalue) (h : string) :
  h ∈ headers → clean_row row !! h = Some (get_or_empty row h).
Proof.
  unfold clean_row, headers. cbn [map list_to_map foldr uncurry fst snd].
  rewrite !elem_of_cons. intros [-> | [-> | [-> | [-> | [-> | H]]]]];
    [by simplify_map_eq.. | by inversion H].
Qed.

Lemma clean_row_dom (row : gmap string pyvalue) :
  dom (clean_row row) = list_to_set headers.
Proof.
  unfold clean_row, headers. cbn [map list_to_map foldr uncurry fst snd].
  rewrite !dom_insert_L, dom_empty_L. cbn [list_to_set foldr]. set_solver.
Qed.

Lemma writerow_five (a b c d e : pyvalue) :
  writerow [a; b; c; d; e] =
  render_record CRLF (map field_text [a; b; c; d; e]).
Proof.
  unfold writerow, render_record. cbn [map join].
  destruct (render_field (field_text a)); reflexivity.
Qed.

Lemma dict_writerow_clean (row : gmap string pyvalue) :
  dict_writerow headers (clean_row row) =
  Returns (render_record CRLF (row_fields row)).
Proof.
  unfold dict_writerow. rewrite clean_row_dom.
  rewrite bool_decide_eq_true_2 by done. f_equal.
  unfold headers at 1. cbn [map].
  rewrite !clean_row_lookup by (unfold headers; set_solver).
  cbn [default]. by rewrite writerow_five.
Qed.

Lemma write_rows_spec (rows : list (gmap string pyvalue)) :
  write_rows rows = Returns (render_table CRLF (map row_fields rows)).
Proof.
  induction rows as [|row rest IH]; [done|].
  cbn [write_rows]. by rewrite dict_writerow_clean, IH.
Qed.

Lemma write_header_spec :
  dict_writerow headers (list_to_map (map (λ h, (h, PyStr h)) headers)) =
  Returns (render_record CRLF headers).
Proof. reflexivity. Qed.

Lemma write_table_spec (rows : list (gmap string pyvalue)) :
  write_table rows = Returns (render_table CRLF (table_records rows)).
Proof.
  unfold write_table. by rewrite write_header_spec, write_rows_spec.
Qed.

(** *** Reading back what the writer wrote *)











(** *** Universal newlines on what the writer wrote *)











(** *** The reader never fails on a text file *)











(** *** The rows that are read *)










Lemma update_participants_tsv_spec (file : option string) (r : record)
    (rows : list (gmap string pyvalue)) :
  read_rows file = Returns rows →
  update_participants_tsv file r =
  Returns (render_table CRLF (table_records (merge_rows r rows))).
Proof.
  unfold update_participants_tsv, read_rows. intros ->. apply write_table_spec.
Qed.



End TableFile.

(** ** Idempotence of the merge *)

Section Idempotence.
Import ExtractSubjectInfo.











Lemma row_fields_written (r : record) (row : gmap string pyvalue) :
  written_by r row →
  row_fields row =
  [subject_id r; session_id r;
   field_text (sex r); field_text (weight r); field_text (age r)].
Proof.
  intros (Hp & Hs & Hx & Hw & Ha). unfold row_fields, headers. cbn [map].
  by rewrite Hp, Hs, Hx, Hw, Ha.
Qed.




Lemma written_by_new_row (r : record) : written_by r (new_row r).
Proof.
  unfold written_by, new_row, get_or_empty. by simplify_map_eq.
Qed.




End Idempotence.




(* ===================================================================== *)
(** * Further properties *)
(* ===================================================================== *)

(** ** More facts about strings *)

Section MoreStringFacts.

Lemma drop_str_app (a b : string) : drop_str (String.length a) (a +:+ b) = b.
Proof. induction a as [|c a IH]; [done | by rewrite app_cons]. Qed.

Lemma endswith_app (a e : string) : endswith e (a +:+ e) = true.
Proof.
  unfold endswith. rewrite length_app_str.
  replace (String.length a + String.length e - String.length e)%nat
    with (String.length a) by lia.
  rewrite drop_str_app, String.eqb_refl, andb_true_r. apply Nat.leb_le. lia.
Qed.

Lemma endswith_split (e s : string) :
  endswith e s = true → ∃ a, s = a +:+ e.
Proof.
  unfold endswith. intros [_ H%String.eqb_eq]%andb_true_iff.
  exists (take_str (String.length s - String.length e) s).
  pose proof (take_drop_str (String.length s - String.length e) s) as T.
  by rewrite H in T.
Qed.

Lemma endswith_app_l (e a b : string) :
  endswith e b = true → endswith e (a +:+ b) = true.
Proof.
  intros [x ->]%endswith_split. rewrite <- app_assoc_str. apply endswith_app.
Qed.

Lemma app_empty (a b : string) : a +:+ b = "" → a = "" ∧ b = "".
Proof. destruct a; [done | by rewrite app_cons]. Qed.

End MoreStringFacts.

(** ** Finding the DICOM file *)

Section FindDicom.
Import ReconstructMEG ExtractSubjectInfo.

Lemma node_nested_ind (P : node → Prop) :
  (∀ data, P (File data)) →
  (∀ entries, Forall (λ e, P (snd e)) entries → P (Dir entries)) →
  ∀ n, P n.
Proof.
  intros Hfile Hdir. fix IH 1. intros [data|entries]; [apply Hfile|].
  apply Hdir. induction entries as [|[name child] rest IHrest]; constructor.
  - apply IH.
  - apply IHrest.
Qed.

Lemma walk_dir (top : string) (entries : list (string * node)) :
  walk top (Dir entries) = (top, nondirs entries) :: walk_entries top entries.
Proof.
  simpl. f_equal. unfold walk_entries.
  induction entries as [|[name child] rest IH]; [done|]. simpl. by rewrite IH.
Qed.

Lemma first_in_walk_app (w1 w2 : list (string * list string)) :
  first_in_walk (w1 ++ w2) =
  match first_in_walk w1 with
  | Some p => Some p
  | None => first_in_walk w2
  end.
Proof.
  induction w1 as [|[root files] w1 IH]; [done|]. simpl.
  by destruct (first_dcm root files).
Qed.

Lemma is_dcm_not_empty (f : string) : is_dcm f = true → f ≠ "".
Proof. by intros H ->. Qed.

Lemma os_path_join_ends (root f : string) :
  ∃ a, os_path_join root f = a +:+ f.
Proof.
  unfold os_path_join. destruct (String.prefix "/" f); [by exists ""|].
  destruct (String.eqb root "" || endswith "/" root); [by exists root|].
  exists (root +:+ "/"). by rewrite app_assoc_str.
Qed.

Lemma is_dcm_join (root f : string) :
  is_dcm f = true →
  os_path_join root f ≠ "" ∧ is_dcm (os_path_join root f) = true.
Proof.
  intros H. destruct (os_path_join_ends root f) as [a ->]. split.
  - intros [_ E]%app_empty. by apply is_dcm_not_empty in H.
  - unfold is_dcm, lower in *. rewrite map_str_app. by apply endswith_app_l.
Qed.

Lemma first_in_walk_is_dcm (w : list (string * list string)) (p : string) :
  first_in_walk w = Some p → p ≠ "" ∧ is_dcm p = true.
Proof.
  induction w as [|[root files] w IH]; [done|]. simpl. unfold first_dcm.
  destruct (List.find is_dcm files) as [f|] eqn:E; simpl; [|done].
  intros [= <-]. apply find_some in E as [_ E]. by apply is_dcm_join.
Qed.

Lemma first_dcm_none (root : string) (entries : list (string * node)) :
  first_dcm root (nondirs entries) = None ↔
  Forall (λ e, match snd e with
               | File _ => is_dcm (fst e) = false
               | Dir _ => True
               end) entries.
Proof.
  unfold first_dcm. rewrite fmap_None.
  induction entries as [|[name [data|es]] rest IH].
  - split; [constructor | done].
  - cbn. destruct (is_dcm name) eqn:E.
    + split; [done|]. intros H. inversion H as [|? ? Hn]; subst. simpl in Hn. congruence.
    + rewrite IH. split; [by constructor | by inversion 1].
  - cbn. rewrite IH. split; [by constructor | by inversion 1].
Qed.

Lemma has_dcm_dir (entries : list (string * node)) :
  has_dcm (Dir entries) = false ↔
  Forall (λ e, match snd e with
               | File _ => is_dcm (fst e) = false
               | Dir _ => has_dcm (snd e) = false
               end) entries.
Proof.
  induction entries as [|[name child] rest IH].
  - split; [constructor | done].
  - change (has_dcm (Dir ((name, child) :: rest)))
      with (match child with
            | File _ => is_dcm name
            | Dir _ => has_dcm child
            end || has_dcm (Dir rest)).
    rewrite orb_false_iff, IH. split.
    + intros [H1 H2]. constructor; [|done]. by destruct child.
    + inversion 1 as [|? ? H1 H2]; subst. split; [|done]. by destruct child.
Qed.

Lemma walk_finds_none (n : node) :
  ∀ top, first_in_walk (walk top n) = None ↔ has_dcm n = false.
Proof.
  induction n as [data|entries IH] using node_nested_ind; intros top; [done|].
  rewrite walk_dir, has_dcm_dir.
  change (first_in_walk ((top, nondirs entries) :: walk_entries top entries))
    with (match first_dcm top (nondirs entries) with
          | Some p => Some p
          | None => first_in_walk (walk_entries top entries)
          end).
  assert (Hsub : first_in_walk (walk_entries top entries) = None ↔
                 Forall (λ e, has_dcm (snd e) = false) entries).
  { unfold walk_entries. induction IH as [|[name child] rest Hc _ IHr].
    - split; [constructor | done].
    - simpl. rewrite first_in_walk_app. simpl in Hc.
      destruct (first_in_walk (walk (os_path_join top name) child)) eqn:E.
      + split; [done|]. inversion 1 as [|? ? H1 H2]; subst. simpl in H1.
        apply (proj2 (Hc (os_path_join top name))) in H1. congruence.
      + rewrite IHr. apply Hc in E. split; [by constructor | by inversion 1]. }
  destruct (first_dcm top (nondirs entries)) as [p|] eqn:E.
  - split; [done|]. intros H. exfalso.
    assert (first_dcm top (nondirs entries) = None); [|congruence].
    apply first_dcm_none. eapply Forall_impl; [exact H|].
    intros [name [d|es]]; simpl; done.
  - rewrite Hsub. apply first_dcm_none in E. split.
    + intros H. apply Forall_forall. intros [name [d|es]] Hin.
      * rewrite Forall_forall in E. apply (E _ Hin).
      * rewrite Forall_forall in H. apply (H _ Hin).
    + intros H. eapply Forall_impl; [exact H|].
      intros [name [d|es]]; simpl; done.
Qed.

(** X1.  [get_first_dicom] finds nothing exactly when the path is not a
    directory or no file of the tree, at any depth, has a name ending in
    ".dcm" in whatever case; a path it returns is not empty and ends in
    ".dcm" in whatever case; and a DICOM file of the directory itself is
    taken before any file of a subdirectory, wherever the subdirectory is
    listed. *)
Theorem get_first_dicom_finds (directory : string) (tree : option node) :
  (get_first_dicom directory tree = None ↔
   match tree with
   | Some n => has_dcm n = false
   | None => True
   end) ∧
  (∀ p, get_first_dicom directory tree = Some p → p ≠ "" ∧ is_dcm p = true) ∧
  (∀ entries f,
      tree = Some (Dir entries) →
      List.find is_dcm (nondirs entries) = Some f →
      get_first_dicom directory tree = Some (os_path_join directory f)).
Proof.
  split; [|split].
  - destruct tree as [n|]; [apply walk_finds_none | done].
  - intros p. destruct tree as [n|]; [apply first_in_walk_is_dcm | done].
  - intros entries f -> Hf. unfold get_first_dicom. rewrite walk_dir.
    cbn [first_in_walk]. unfold first_dcm. by rewrite Hf.
Qed.

End FindDicom.

Lemma get_first_dicom_finds_witness :
  ExtractSubjectInfo.get_first_dicom "/mri/sub-1" (Some Examples.dicom_tree) =
    Some "/mri/sub-1/B.DCM" ∧
  ExtractSubjectInfo.is_dcm "/mri/sub-1/B.DCM" = true.
Proof.
  assert (H : ExtractSubjectInfo.get_first_dicom "/mri/sub-1"
                (Some Examples.dicom_tree) = Some "/mri/sub-1/B.DCM").
  { apply (proj2 (proj2 (get_first_dicom_finds "/mri/sub-1" (Some Examples.dicom_tree)))
             [("series1", ReconstructMEG.Dir [("a.dcm", ReconstructMEG.File "")]);
              ("B.DCM", ReconstructMEG.File "")] "B.DCM"); reflexivity. }
  split; [exact H|].
  apply (proj1 (proj2 (get_first_dicom_finds "/mri/sub-1" (Some Examples.dicom_tree)))
           "/mri/sub-1/B.DCM" H).
Defined.

(** ** Sex, weight and the sign of the computed age *)

Section SexWeightAge.
Import ExtractSubjectInfo.

Context (dcmread : string → option (gmap tag DataElement)).

(** X2.  When extraction returns for a data set that was read, the sex is
    the value of the sex element as it is (not turned into a string), the
    weight is [str()] of the value of the weight element, and each is the
    sentinel "n/a" when its element is absent or its value is the empty
    string; so the sex is never the empty string, and a weight whose value
    is [None] comes out as the text "None".  Neither depends on the age or
    the dates. *)
Theorem extract_fields_sex_weight (dicom_file : string)
    (dcm : gmap tag DataElement) (sx : pyvalue) (w a : string) :
  dcmread dicom_file = Some dcm →
  extract_fields dcmread dicom_file = Returns (sx, w, a) →
  sx = (if py_eq_str (element_value (dcm !! TAG_PATIENT_SEX)) ""
        then PyStr na else element_value (dcm !! TAG_PATIENT_SEX)) ∧
  w = (if py_eq_str (element_value (dcm !! TAG_PATIENT_WEIGHT)) ""
       then na else py_str (element_value (dcm !! TAG_PATIENT_WEIGHT))) ∧
  sx ≠ PyStr "" ∧
  (dcm !! TAG_PATIENT_SEX = None → sx = PyStr na) ∧
  (dcm !! TAG_PATIENT_WEIGHT = None → w = na) ∧
  (∀ el, dcm !! TAG_PATIENT_WEIGHT = Some el → truth el = true →
         value el = PyNone → w = "None").
Proof.
  intros Hread H. unfold extract_fields in H. rewrite Hread in H. cbv zeta in H.
  fold (element_value (dcm !! TAG_PATIENT_SEX)) in H.
  fold (element_value (dcm !! TAG_PATIENT_WEIGHT)) in H.
  set (sx0 := if py_eq_str (element_value (dcm !! TAG_PATIENT_SEX)) ""
              then PyStr na else element_value (dcm !! TAG_PATIENT_SEX)) in *.
  set (w0 := if py_eq_str (element_value (dcm !! TAG_PATIENT_WEIGHT)) ""
             then na else py_str (element_value (dcm !! TAG_PATIENT_WEIGHT))) in *.
  assert (Hres : sx = sx0 ∧ w = w0).
  { destruct (dcm !! TAG_PATIENT_AGE) as [el|].
    - destruct (truth el && negb (py_eq_str (value el) "")).
      + destruct (explicit_age (value el)); [|done]. by injection H as <- <- _.
      + destruct (dcm !! TAG_STUDY_DATE), (dcm !! TAG_PATIENT_BIRTH_DATE);
          try destruct (truth _ && truth _); by injection H as <- <- _.
    - destruct (dcm !! TAG_STUDY_DATE), (dcm !! TAG_PATIENT_BIRTH_DATE);
        try destruct (truth _ && truth _); by injection H as <- <- _. }
  destruct Hres as [-> ->]. subst sx0 w0.
  split; [done|]. split; [done|]. split; [|split; [|split]].
  - destruct (py_eq_str _ "") eqn:E; [done|].
    intros Hs. rewrite Hs in E. done.
  - by intros ->.
  - by intros ->.
  - intros el -> Ht Hv. simpl. by rewrite Ht, Hv.
Qed.

(** X3.  The age that line 57 computes from a birth date and a study date
    is negative exactly when the study date is earlier than the birth
    date, and it is zero for a study on the day of birth: the script does
    not guard against a study that precedes the birth. *)
Theorem age_years_sign (dob study_date : date) :
  (age_years dob study_date < 0 ↔ earlier study_date dob) ∧
  age_years dob dob = 0.
Proof.
  unfold age_years, pair_lt, earlier. split.
  - destruct (month study_date <? month dob) eqn:E1;
      destruct (month study_date =? month dob) eqn:E2;
      destruct (day study_date <? day dob) eqn:E3; simpl; lia.
  - destruct (month dob <? month dob) eqn:E1;
      destruct (month dob =? month dob) eqn:E2;
      destruct (day dob <? day dob) eqn:E3; simpl; lia.
Qed.

End SexWeightAge.

Lemma extract_fields_sex_weight_witness :
  ExtractSubjectInfo.extract_fields (Examples.reads Examples.weight_none) "1.dcm" =
    ExtractSubjectInfo.Returns (ExtractSubjectInfo.PyStr "F", "None", "n/a") ∧
  ExtractSubjectInfo.PyStr "F" ≠ ExtractSubjectInfo.PyStr "" ∧
  "None" = "None".
Proof.
  pose proof (extract_fields_sex_weight (Examples.reads Examples.weight_none) "1.dcm"
                Examples.weight_none (ExtractSubjectInfo.PyStr "F") "None" "n/a"
                eq_refl eq_refl) as (_ & _ & Hsex & _ & _ & Hw).
  split; [reflexivity|]. split; [exact Hsex|].
  apply (Hw {| ExtractSubjectInfo.value := ExtractSubjectInfo.PyNone;
               ExtractSubjectInfo.truth := true |}); reflexivity.
Defined.

(** ** The extraction script as a whole *)

Section ExtractMain.
Import ReconstructMEG ExtractSubjectInfo.

Context (dcmread : string → option (gmap tag DataElement)).

(** X4.  When the DICOM path is not a directory, or its tree has no file
    named *.dcm, or the first such file cannot be read, the script merges
    the record with "n/a" for sex, weight and age; into a table that does
    not exist this writes the header and that one row. *)
Theorem main_without_readable_dicom
    (dicom_path : string) (tree : option node) (subject session : string)
    (table : option string) :
  (match tree with
   | Some n => has_dcm n = false
   | None => True
   end ∨
   ∃ p, get_first_dicom dicom_path tree = Some p ∧ dcmread p = None) →
  main dcmread dicom_path tree subject session table =
    update_participants_tsv table (na_record subject session) ∧
  main dcmread dicom_path tree subject session None =
    Returns (render_table CRLF [headers; [subject; session; na; na; na]]).
Proof.
  intros H.
  assert (Hm : ∀ t, main dcmread dicom_path tree subject session t =
                    update_participants_tsv t (na_record subject session)).
  { intros t. unfold main. destruct H as [H | (p & Hp & Hr)].
    - assert (get_first_dicom dicom_path tree = None) as ->; [|done].
      destruct tree as [n|]; [by apply walk_finds_none | done].
    - rewrite Hp. destruct (String.eqb p ""); [done|].
      unfold extract_fields. by rewrite Hr. }
  split; [apply Hm|]. rewrite Hm.
  rewrite (update_participants_tsv_spec None _ [] eq_refl).
  unfold merge_rows. cbn [update_loop snd fst app]. unfold table_records.
  cbn [map]. by rewrite (row_fields_written _ _ (written_by_new_row _)).
Qed.

End ExtractMain.

Lemma main_without_readable_dicom_witness :
  ExtractSubjectInfo.main Examples.unreadable "/mri/sub-1"
    (Some (ReconstructMEG.Dir [("notes.txt", ReconstructMEG.File "")]))
    "sub-1" "ses-1" None =
  ExtractSubjectInfo.Returns
    (ExtractSubjectInfo.render_table ExtractSubjectInfo.CRLF
       [ExtractSubjectInfo.headers; ["sub-1"; "ses-1"; "n/a"; "n/a"; "n/a"]]).
Proof.
  apply (main_without_readable_dicom Examples.unreadable "/mri/sub-1"
           (Some (ReconstructMEG.Dir [("notes.txt", ReconstructMEG.File "")]))
           "sub-1" "ses-1" None).
  left. reflexivity.
Defined.

(** ** The table file across merges and across the two scripts *)

Section TableAcross.
Import ExtractSubjectInfo.



(** X7.  The header-only table that reconstruct_MEG.py creates when there
    is none (line 247, with a bare line feed) is read by the merge as a
    table without rows, and so are an empty file and a file that holds the
    header with CR LF: merging a record into any of them writes what merging
    into a missing table writes, the header and the line of the record, with
    CR LF line ends. *)
Theorem header_of_reconstruct_is_empty_table (r : record) :
  read_rows (Some ReconstructMEG.header_line) = Returns [] ∧
  update_participants_tsv (Some ReconstructMEG.header_line) r =
    update_participants_tsv None r ∧
  update_participants_tsv (Some "") r = update_participants_tsv None r ∧
  update_participants_tsv (Some header_text) r = update_participants_tsv None r ∧
  update_participants_tsv None r =
    Returns (header_text +:+ render_record CRLF (record_fields r)).
Proof.
  assert (Hnone : update_participants_tsv None r =
                  Returns (render_table CRLF (table_records (merge_rows r []))))
    by apply (update_participants_tsv_spec None r [] eq_refl).
  assert (Hsame : ∀ content,
             read_rows (Some content) = Returns [] →
             update_participants_tsv (Some content) r =
             update_participants_tsv None r).
  { intros content Hc. rewrite Hnone.
    apply (update_participants_tsv_spec (Some content) r [] Hc). }
  assert (H : read_rows (Some ReconstructMEG.header_line) = Returns []).
  { vm_compute. reflexivity. }
  split; [exact H|]. split; [exact (Hsame _ H)|]. clear H.
  split; [apply Hsame; vm_compute; reflexivity|].
  split; [apply Hsame; vm_compute; reflexivity|].
  rewrite Hnone. clear Hnone Hsame.
  unfold merge_rows. cbn [update_loop snd fst app]. unfold table_records.
  cbn [map]. rewrite (row_fields_written _ _ (written_by_new_row _)).
  unfold render_table. cbn [map concat_str]. by rewrite app_nil_r.
Qed.



End TableAcross.



(** ** The subject ID once more *)

Section SubjectId.
Import ReconstructMEG.










Lemma prefix_split (w s : string) :
  String.prefix w s = true → ∃ r, s = w +:+ r.
Proof.
  revert s. induction w as [|c w IH]; intros s; [by exists s|].
  destruct s as [|d s]; [done|]. rewrite prefix_cons.
  intros [->%Ascii.eqb_eq [r ->]%IH]%andb_true_iff. by exists r.
Qed.

Lemma forall_str_app (p : ascii → bool) (a b : string) :
  forall_str p (a +:+ b) = forall_str p a && forall_str p b.
Proof.
  induction a as [|c a IH]; [done|]. rewrite app_cons. simpl.
  by rewrite IH, andb_assoc.
Qed.

(** A word with a character that the text lacks does not occur in it. *)
Lemma contains_lacking (p : ascii → bool) (w s : string) :
  forall_str p w = false → forall_str p s = true → contains w s = false.
Proof.
  intros Hw. induction s as [|c s IH]; intros Hs.
  - simpl. rewrite orb_false_r. destruct w; [done | reflexivity].
  - simpl. apply orb_false_iff. split.
    + destruct (String.prefix w (String c s)) eqn:E; [|done].
      apply prefix_split in E as [r E]. rewrite E, forall_str_app, Hw in Hs. done.
    + apply IH. simpl in Hs. by apply andb_true_iff in Hs as [_ Hs].
Qed.

Lemma replace_absent (old new s : string) :
  old ≠ "" → contains old s = false → replace old new s = s.
Proof.
  intros Hne. unfold replace. destruct old as [|o old]; [done|].
  induction s as [|c s IH]; [done|]. simpl.
  intros [H1 H2]%orb_false_iff.
  change (if ascii_dec o c then String.prefix old s else false)
    with (String.prefix (String o old) (String c s)).
  change (if ascii_dec o c then String.prefix old s else false)
    with (String.prefix (String o old) (String c s)) in H1.
  rewrite H1. by rewrite IH.
Qed.

Lemma underscore_free (t : string) :
  forall_str (λ c, negb (is_sep_c c)) t = true →
  forall_str (λ c, negb (Ascii.eqb c "_")) t = true ∧
  forall_str (λ c, negb (Ascii.eqb c "-")) t = true.
Proof.
  induction t as [|c t IH]; [done|]. simpl. unfold is_sep_c at 1.
  rewrite negb_orb. intros [[H1 H2]%andb_true_iff [H3 H4]%IH]%andb_true_iff.
  by rewrite H1, H2, H3, H4.
Qed.

(** X9.  For a directory name that is a token without dash or underscore,
    alone or after the prefix "sub-", the subject ID of the destination
    directories (line 135) is the canonical one: the token in upper case. *)
Theorem copy_subject_id_agrees_on_plain_names (t : string) :
  forall_str (λ c, negb (is_sep_c c)) t = true →
  copy_subject_id ("sub-" +:+ t) = upper t ∧
  normalize_subject_id ("sub-" +:+ t) = upper t ∧
  copy_subject_id t = upper t ∧
  normalize_subject_id t = upper t.
Proof.
  intros Ht. destruct (underscore_free t Ht) as [Hu Hd].
  assert (Hrs : remove_seps t = t).
  { unfold remove_seps. clear Hu Hd. induction t as [|c t IH]; [done|]. simpl in *.
    apply andb_true_iff in Ht as [Hc Ht]. by rewrite Hc, IH. }
  assert (Hund : replace "_" "" t = t).
  { apply replace_absent; [done|].
    by apply (contains_lacking (λ c, negb (Ascii.eqb c "_")) "_" t). }
  assert (Hsd : replace "sub-" "" t = t).
  { apply replace_absent; [done|].
    by apply (contains_lacking (λ c, negb (Ascii.eqb c "-")) "sub-" t). }
  assert (Hsu : replace "sub_" "" t = t).
  { apply replace_absent; [done|].
    by apply (contains_lacking (λ c, negb (Ascii.eqb c "_")) "sub_" t). }
  split; [|split; [|split]].
  - unfold copy_subject_id.
    assert (replace "_" "" ("sub-" +:+ t) = "sub-" +:+ t) as ->.
    { apply replace_absent; [done|].
      apply (contains_lacking (λ c, negb (Ascii.eqb c "_"))); [done|].
      by rewrite forall_str_app, Hu. }
    assert (replace "sub-" "" ("sub-" +:+ t) = replace "sub-" "" t) as ->.
    { rewrite !app_cons, app_nil_l. unfold replace. cbn [replace_go].
      rewrite !prefix_cons, prefix_nil. reflexivity. }
    by rewrite Hsd, Hsu.
  - unfold normalize_subject_id.
    change (strip_sub_prefix ("sub-" +:+ t)) with t. by rewrite Hrs.
  - unfold copy_subject_id. by rewrite Hund, Hsd, Hsu.
  - unfold normalize_subject_id.
    assert (strip_sub_prefix t = t) as ->; [|by rewrite Hrs].
    destruct t as [|a [|b [|c [|d rest]]]]; try done. simpl in Ht.
    apply andb_true_iff in Ht as [_ Ht]. apply andb_true_iff in Ht as [_ Ht].
    apply andb_true_iff in Ht as [_ Ht]. apply andb_true_iff in Ht as [Ht _].
    apply negb_true_iff in Ht. simpl. rewrite Ht. by rewrite !andb_false_r.
Qed.

End SubjectId.

Lemma copy_subject_id_agrees_on_plain_names_witness :
  ReconstructMEG.copy_subject_id ("sub-" +:+ "brs0170") = Py.upper "brs0170" ∧
  ReconstructMEG.normalize_subject_id ("sub-" +:+ "brs0170") = Py.upper "brs0170" ∧
  ReconstructMEG.copy_subject_id "brs0170" = Py.upper "brs0170" ∧
  ReconstructMEG.normalize_subject_id "brs0170" = Py.upper "brs0170".
Proof.
  apply (copy_subject_id_agrees_on_plain_names "brs0170"). reflexivity.
Defined.

(** ** What the pre-check lets through *)

Section PreCheckExact.
Import ReconstructMEG.
Local Arguments subject_has_invalid_files : simpl never.

Lemma check_files_true (expected : string) (es : list (string * node)) :
  fst (check_files expected es) = true →
  ∃ fname n, (fname, n) ∈ es ∧ is_checked_file fname n = true ∧
             id_in_stem expected fname = false.
Proof.
  induction es as [|[name m] rest IH]; [done|]. simpl.
  destruct (is_checked_file name m) eqn:Ec.
  - destruct (id_in_stem expected name) eqn:Ei; simpl.
    + intros (fname & n & Hin & H)%IH. exists fname, n. split; [by right | done].
    + intros _. exists name, m. split; [by left | done].
  - intros (fname & n & Hin & H)%IH. exists fname, n. split; [by right | done].
Qed.

Lemma precheck_true (subject : string) (entries : list (string * node)) :
  fst (precheck subject entries) = true → stem_lacks_id subject entries.
Proof.
  induction entries as [|[name [data|es]] rest IH]; [done| |].
  - rewrite precheck_file.
    intros (session & es & fname & n & Hin & H)%IH.
    exists session, es, fname, n. split; [by right | done].
  - rewrite precheck_dir.
    destruct (fst (subject_has_invalid_files name es subject)) eqn:E.
    + intros _. unfold subject_has_invalid_files in E. simpl in E.
      apply check_files_true in E as (fname & n & Hin & H).
      exists name, es, fname, n. split; [by left | done].
    + simpl. intros (session & es' & fname & n & Hin & H)%IH.
      exists session, es', fname, n. split; [by right | done].
Qed.

Lemma precheck_stem (subject : string) (entries : list (string * node)) :
  stem_lacks_id subject entries → fst (precheck subject entries) = true.
Proof.
  intros (session & es & fname & n & Hin & Hf & Hc & Hid).
  induction entries as [|[name [data|es']] rest IH]; [by inversion Hin| |].
  - rewrite precheck_file. apply elem_of_cons in Hin as [[=]|Hin]. by apply IH.
  - rewrite precheck_dir. apply elem_of_cons in Hin as [[= <- <-]|Hin].
    + assert (fst (subject_has_invalid_files session es subject) = true) as ->; [|done].
      unfold subject_has_invalid_files. simpl.
      by rewrite (check_files_finds _ _ _ _ Hf Hc Hid).
    + destruct (fst (subject_has_invalid_files name es' subject)); simpl;
        [done | by apply IH].
Qed.

(** X10.  The pre-check rejects the subject exactly when a folder directly
    under the subject directory directly holds a regular file whose last
    suffix is ".fif" in whatever case and whose stem, compared without
    regard to case, lacks the canonical subject ID.  Files of the subject
    directory itself, files below a subfolder of a session and files with
    another suffix never make it reject. *)
Theorem precheck_rejects_exactly (subject : string)
    (entries : list (string * node)) :
  fst (precheck subject entries) = true ↔ stem_lacks_id subject entries.
Proof. split; [apply precheck_true | apply precheck_stem]. Qed.

Lemma rfind_c_last (c : ascii) (a b : string) :
  rfind_c c b = None → rfind_c c (a +:+ String c b) = Some (String.length a).
Proof.
  intros Hb. induction a as [|x a IH].
  - rewrite app_nil_l. simpl. by rewrite Hb, Ascii.eqb_refl.
  - rewrite app_cons. simpl. by rewrite IH.
Qed.

Lemma fif_name_parts (base : string) :
  base ≠ "" →
  suffix (base +:+ ".fif") = ".fif" ∧ stem (base +:+ ".fif") = base.
Proof.
  intros Hne. unfold suffix, stem.
  change ".fif" with (String "." "fif") at 1 3.
  rewrite (rfind_c_last "." base "fif" eq_refl).
  assert ((0 <? String.length base)%nat &&
          (String.length base <? String.length (base +:+ String "." "fif") - 1)%nat
          = true) as ->.
  { rewrite length_app_str. apply andb_true_iff. split; apply Nat.ltb_lt.
    - destruct base; [done | simpl; lia].
    - simpl. lia. }
  split; [apply drop_str_app|].
  pose proof (take_str_app base ".fif") as H. rewrite length_app_str in H.
  replace (String.length base + String.length ".fif" - String.length ".fif")%nat
    with (String.length base) in H by lia.
  exact H.
Qed.

(** X11.  Once the pre-check has passed, every regular file that the
    conversion loop takes from a session folder (a name ending in ".fif"),
    other than a file named just ".fif", has been checked: the part of its
    name before ".fif" holds the canonical subject ID, whatever the case.
    A file named just ".fif" is taken by the loop without having been
    checked. *)
Theorem converted_files_were_checked (subject : string)
    (entries : list (string * node)) :
  fst (precheck subject entries) = false →
  (∀ session es name data,
      (session, Dir es) ∈ entries → (name, File data) ∈ glob_fif es →
      name ≠ ".fif" →
      ∃ base, name = base +:+ ".fif" ∧ stem name = base ∧
              contains (upper (normalize_subject_id subject)) (upper base) = true) ∧
  (∀ data, glob_fif [(".fif", File data)] = [(".fif", File data)] ∧
           is_checked_file ".fif" (File data) = false).
Proof.
  intros Hpass. split; [|done].
  intros session es name data Hs Hin Hne.
  apply list_elem_of_In, filter_In in Hin as [Hin%list_elem_of_In Hend].
  simpl in Hend. apply endswith_split in Hend as [base ->].
  assert (Hb : base ≠ "") by (by intros ->).
  destruct (fif_name_parts base Hb) as [Hsuf Hstem].
  exists base. split; [done|]. split; [done|].
  destruct (contains (upper (normalize_subject_id subject)) (upper base)) eqn:E; [done|].
  exfalso. assert (fst (precheck subject entries) = true); [|congruence].
  apply precheck_stem. exists session, es, (base +:+ ".fif"), (File data).
  split; [done|]. split; [done|]. split.
  - unfold is_checked_file. by rewrite Hsuf.
  - unfold id_in_stem. by rewrite Hstem.
Qed.

End PreCheckExact.

Lemma converted_files_were_checked_witness :
  ∃ base,
    "sub-xyz1_task-raw.fif" = base +:+ ".fif" ∧
    ReconstructMEG.stem "sub-xyz1_task-raw.fif" = base ∧
    Py.contains (Py.upper (ReconstructMEG.normalize_subject_id "sub-XYZ"))
                (Py.upper base) = true.
Proof.
  apply (proj1 (converted_files_were_checked "sub-XYZ" Examples.session_xyz1 eq_refl)
           "2401" [("sub-xyz1_task-raw.fif", ReconstructMEG.File "raw data")]
           "sub-xyz1_task-raw.fif" "raw data").
  - apply list_elem_of_here.
  - apply list_elem_of_here.
  - discriminate.
Defined.

(** ** The raw copy once more *)

Section CopyFrame.
Import ReconstructMEG.





End CopyFrame.


(** ** What the filename pattern takes *)

Section PatternSound.
Import ReconstructMEG.

Lemma run_chr_in (p : ascii → bool) (s : string) (cs : caps) (x : string * caps) :
  x ∈ run (Chr p) s cs →
  ∃ c, p c = true ∧ s = String c (fst x) ∧ snd x = cs.
Proof.
  destruct s as [|c s]; simpl; [by inversion 1|].
  destruct (p c) eqn:E; [|by inversion 1].
  intros ->%list_elem_of_singleton. by exists c.
Qed.

Lemma run_seq_in (r1 r2 : re) (s : string) (cs : caps) (x : string * caps) :
  x ∈ run (Seq r1 r2) s cs →
  ∃ y, y ∈ run r1 s cs ∧ x ∈ run r2 (fst y) (snd y).
Proof.
  simpl. intros (y & Hy & Hx)%list_elem_of_In%in_flat_map.
  exists y. by rewrite !list_elem_of_In.
Qed.

Lemma run_opt_in (r : re) (s : string) (cs : caps) (x : string * caps) :
  x ∈ run (Opt r) s cs → x ∈ run r s cs ∨ x = (s, cs).
Proof.
  simpl. intros [H|H%list_elem_of_singleton]%elem_of_app; [by left | by right].
Qed.

Lemma run_lit_in (w s : string) (cs : caps) (x : string * caps) :
  x ∈ run (Lit w) s cs → s = w +:+ fst x ∧ snd x = cs.
Proof.
  revert s cs. induction w as [|c w IH]; intros s cs.
  - simpl. by intros ->%list_elem_of_singleton.
  - cbn [Lit]. intros (y & Hy & Hx)%run_seq_in.
    apply run_chr_in in Hy as (d & ->%Ascii.eqb_eq & -> & Hc).
    apply IH in Hx as [-> ->]. by rewrite app_cons.
Qed.

Lemma star_rests_in (p : ascii → bool) (s rest : string) :
  rest ∈ star_rests p s → ∃ w, forall_str p w = true ∧ s = w +:+ rest.
Proof.
  induction s as [|c s IH]; simpl.
  - intros ->%list_elem_of_singleton. by exists "".
  - destruct (p c) eqn:E.
    + intros [(w & Hw & ->)%IH | ->%list_elem_of_singleton]%elem_of_app.
      * exists (String c w). simpl. by rewrite E, Hw.
      * by exists "".
    + intros ->%list_elem_of_singleton. by exists "".
Qed.

Lemma run_star_in (p : ascii → bool) (s : string) (cs : caps) (x : string * caps) :
  x ∈ run (Star p) s cs →
  ∃ w, forall_str p w = true ∧ s = w +:+ fst x ∧ snd x = cs.
Proof.
  simpl. intros (rest & Hr & Hin)%list_elem_of_In%in_map_iff. subst x.
  apply list_elem_of_In, star_rests_in in Hin as (w & Hw & ->). by exists w.
Qed.

Lemma run_plus_in (p : ascii → bool) (s : string) (cs : caps) (x : string * caps) :
  x ∈ run (Plus p) s cs →
  ∃ w, w ≠ "" ∧ forall_str p w = true ∧ s = w +:+ fst x ∧ snd x = cs.
Proof.
  unfold Plus. intros (y & Hy & Hx)%run_seq_in.
  apply run_chr_in in Hy as (c & Hc & -> & Hcs).
  apply run_star_in in Hx as (w & Hw & -> & ->).
  exists (String c w). simpl. by rewrite Hc, Hw.
Qed.

Lemma run_group_in (n : nat) (r : re) (s : string) (cs : caps) (x : string * caps) :
  x ∈ run (Group n r) s cs →
  ∃ cs', (fst x, cs') ∈ run r s cs ∧
         snd x = (n, take_str (String.length s - String.length (fst x)) s) :: cs'.
Proof.
  simpl. intros ([rest cs'] & Hx & Hin)%list_elem_of_In%in_map_iff. subst x.
  exists cs'. by rewrite list_elem_of_In.
Qed.

(** What the optional prefix of the pattern consumes. *)
Lemma run_prefix_in (s : string) (cs : caps) (x : string * caps) :
  x ∈ run (Opt (Seq (Lit "sub") (Opt (Chr is_sep_c)))) s cs →
  ∃ pre, (pre = "" ∨ pre = "sub" ∨ pre = "sub-" ∨ pre = "sub_") ∧
         s = pre +:+ fst x ∧ snd x = cs.
Proof.
  intros [H | ->]%run_opt_in; [|exists ""; by split; [left|]].
  apply run_seq_in in H as (y & [Hy1 Hy2]%run_lit_in & Hx).
  apply run_opt_in in Hx as [Hx | ->].
  - apply run_chr_in in Hx as (c & Hc & Hs & Hcs).
    rewrite Hy1, Hs, Hcs, Hy2.
    unfold is_sep_c in Hc. apply orb_true_iff in Hc as [->%Ascii.eqb_eq | ->%Ascii.eqb_eq].
    + exists "sub-". split; [auto | done].
    + exists "sub_". split; [auto | done].
  - exists "sub". simpl. split; [auto | done].
Qed.

(** Every name the pattern takes is built by the grammar, and the groups
    are the subject token and the task with its digits. *)
Lemma match_fname_sound (fname subject_id task_run_str : string) :
  match_fname fname = Some (subject_id, task_run_str) →
  ∃ q, accepted q ∧ fname = assemble q ∧
       subject_id = upper (fp_subject q) ∧
       task_run_str = fp_task q +:+ fp_digits q.
Proof.
  unfold match_fname, rmatch.
  destruct (head (run pattern fname [])) as [[rest m]|] eqn:E; [|done].
  intros [= <- <-]. apply head_Some_elem_of in E. unfold pattern in E.
  apply run_seq_in in E as ([s1 c1] & (pre & Hpre & Hs0 & Hc1)%run_prefix_in & E).
  simpl in Hs0, Hc1. subst fname c1.
  apply run_seq_in in E as ([s2 c2] & (c1' & Hg1 & Hc2)%run_group_in & E).
  apply run_plus_in in Hg1 as (subj & Hsubj0 & Hsubj & Hs1 & Hc1').
  simpl in Hs1, Hc2, Hc1'. subst c1' s1. rewrite take_str_app in Hc2. subst c2.
  apply run_seq_in in E as ([s3 c3] & (sep1 & Hsep1 & Hs2 & Hc3)%run_chr_in & E).
  simpl in Hs2, Hc3. subst s2 c3.
  apply run_seq_in in E as ([s4 c4] & (c3' & Hg2 & Hc4)%run_group_in & E).
  apply run_seq_in in Hg2 as ([s3a c3a] & (task & Ht0 & Ht & Hs3 & Hc3a)%run_plus_in & Hg2).
  apply run_star_in in Hg2 as (ds & Hds & Hs3a & Hc3').
  simpl in Hs3, Hc3a, Hs3a, Hc3', Hc4. subst c3a c3' s3a s3.
  rewrite <- app_assoc_str, take_str_app in Hc4. subst c4.
  apply run_seq_in in E as ([s5 c5] & (sep2 & Hsep2 & Hs4 & Hc5)%run_chr_in & E).
  simpl in Hs4, Hc5. subst s4 c5.
  apply run_lit_in in E as [Hs5 Hm]. simpl in Hs5, Hm. subst s5 m.
  exists {| fp_prefix := pre; fp_subject := subj; fp_sep1 := sep1;
            fp_task := task; fp_digits := ds; fp_sep2 := sep2; fp_rest := rest |}.
  split; [by repeat split|]. split; [|by split].
  unfold assemble. cbn [fp_prefix fp_subject fp_sep1 fp_task fp_digits fp_sep2 fp_rest].
  by rewrite ?app_assoc_str.
Qed.

Lemma upper_alnum (s : string) :
  forall_str is_alnum_lower_c s = true →
  forall_str is_upper_alnum_c (upper s) = true.
Proof.
  unfold upper. induction s as [|c s IH]; [done|]. simpl.
  intros [Hc Hs]%andb_true_iff. rewrite (IH Hs), andb_true_r.
  revert Hc. destruct c as [[] [] [] [] [] [] [] []]; vm_compute; done.
Qed.

Lemma upper_not_empty (s : string) : s ≠ "" → upper s ≠ "".
Proof. by destruct s. Qed.

(** X13.  Filename parsing succeeds only on names of the grammar that the
    pattern spells (an optional "sub" with an optional separator, an
    alphanumeric subject token, a separator, letters with optional digits,
    a separator, "raw", anything), and then returns what the parts stand
    for.  So a parsed subject is never empty and is made of upper-case
    letters and digits, a parsed task is never empty and is made of
    lower-case letters, and a parsed run is not negative.  A name that the
    first pattern takes always gets through the second: the branch of lines
    185-187 is never taken. *)
Theorem parse_fname_only_grammar (fname : string) :
  (∀ p, parse_fname fname = Some p →
        (∃ q, accepted q ∧ fname = assemble q ∧ p = parts_meaning q) ∧
        p_subject p ≠ "" ∧ forall_str is_upper_alnum_c (p_subject p) = true ∧
        p_task p ≠ "" ∧ forall_str is_alpha_lower_c (p_task p) = true ∧
        (∀ n, p_run p = Some n → 0 ≤ n)) ∧
  (∀ m, match_fname fname = Some m → parse_fname fname ≠ None).
Proof.
  assert (H : ∀ subject_id task_run_str,
             match_fname fname = Some (subject_id, task_run_str) →
             ∃ q, accepted q ∧ fname = assemble q ∧
                  parse_fname fname = Some (parts_meaning q)).
  { intros subject_id task_run_str Hm. pose proof Hm as Hm'.
    apply match_fname_sound in Hm' as (q & Hq & Hf & -> & ->). exists q.
    split; [done|]. split; [done|]. unfold parse_fname. rewrite Hm.
    destruct Hq as (_ & _ & _ & _ & Ht0 & Ht & Hd & _).
    rewrite (split_task_run_spec _ _ Ht0 Ht Hd). unfold parts_meaning.
    by destruct (fp_digits q). }
  split.
  - intros p Hp. unfold parse_fname in Hp.
    destruct (match_fname fname) as [[sid trs]|] eqn:Em; [|done].
    destruct (H sid trs eq_refl) as (q & Hq & Hf & Hparse).
    unfold parse_fname in Hparse. rewrite Em in Hparse. rewrite Hparse in Hp.
    injection Hp as <-. split; [by exists q|].
    destruct Hq as (_ & Hs0 & Hs & _ & Ht0 & Ht & _ & _).
    unfold parts_meaning. cbn [p_subject p_task p_run].
    split; [by apply upper_not_empty|]. split; [by apply upper_alnum|].
    split; [done|]. split; [done|].
    intros n. destruct (fp_digits q); [done|]. intros [= <-]. lia.
  - intros [sid trs] Hm. destruct (H sid trs Hm) as (q & _ & _ & ->). done.
Qed.

End PatternSound.

Lemma parse_fname_only_grammar_witness :
  (∃ q, ReconstructMEG.accepted q ∧
        "subx_rest_raw" = ReconstructMEG.assemble q ∧
        {| ReconstructMEG.p_subject := "X"; ReconstructMEG.p_task := "rest";
           ReconstructMEG.p_run := None |} = ReconstructMEG.parts_meaning q) ∧
  ReconstructMEG.parse_fname "subx_rest_raw" ≠ None.
Proof.
  split.
  - apply (proj1 (parse_fname_only_grammar "subx_rest_raw")
             {| ReconstructMEG.p_subject := "X"; ReconstructMEG.p_task := "rest";
                ReconstructMEG.p_run := None |}).
    reflexivity.
  - apply (proj2 (parse_fname_only_grammar "subx_rest_raw") ("X", "rest")).
    reflexivity.
Defined.

(** ** The conversion loop and the session steps *)

Section SessionSteps.
Import ReconstructMEG.

Context (find_spec pip_install : string → bool)
        (read_raw_fif : string → node → bool)
        (write_raw_bids : string → node → BIDSPath → gmap string fnode →
                          gmap string fnode * bool)
        (extract_subject_info : list string → gmap string fnode →
                                gmap string fnode * bool).

Lemma convert_file_step (session_id reconstructed_path subject_id : string)
    (st : state) (f : string * node) :
  let st' := snd (convert_file read_raw_fif write_raw_bids session_id
                               reconstructed_path (subject_id, st) f) in
  calls st' =
    calls st ++ option_list (write_call read_raw_fif session_id reconstructed_path f) ∧
  (failed_bids_files st' = failed_bids_files st ∨
   (failed_bids_files st' = failed_bids_files st ++ [fst f] ∧
    is_Some (write_call read_raw_fif session_id reconstructed_path f))).
Proof.
  destruct f as [name n].
  unfold convert_file, write_call, parse_filename, parse_fname, match_filename.
  cbn [fst snd].
  destruct (read_raw_fif name n); cbn [negb];
    [|split; [cbn; by rewrite List.app_nil_r | by left]].
  destruct (match_fname (fname_of name)) as [[sid trs]|];
    [|split; [cbn; by rewrite List.app_nil_r | by left]].
  destruct (split_task_run trs) as [[task run]|];
    [|split; [cbn; by rewrite List.app_nil_r | by left]].
  destruct (write_raw_bids _ _ _ _) as [fs' [|]]; cbn; split; auto.
Qed.

Lemma convert_loop_calls (session_id reconstructed_path : string)
    (meg_files : list (string * node)) (subject_id : string) (st : state) :
  let st' := snd (foldl (convert_file read_raw_fif write_raw_bids session_id
                                      reconstructed_path)
                        (subject_id, st) meg_files) in
  calls st' =
    calls st ++ omap (write_call read_raw_fif session_id reconstructed_path) meg_files ∧
  ∃ l, failed_bids_files st' = failed_bids_files st ++ l ∧
       Forall (λ name, ∃ n, (name, n) ∈ meg_files ∧
                 is_Some (write_call read_raw_fif session_id reconstructed_path
                                     (name, n))) l.
Proof.
  revert subject_id st. induction meg_files as [|f rest IH]; intros subject_id st.
  - simpl. split; [by rewrite List.app_nil_r|]. exists []. by rewrite List.app_nil_r.
  - change (foldl ?F ?a (f :: rest)) with (foldl F (F a f) rest). cbv zeta.
    pose proof (convert_file_step session_id reconstructed_path subject_id st f)
      as [Hc Hf].
    destruct (convert_file read_raw_fif write_raw_bids session_id
                           reconstructed_path (subject_id, st) f)
      as [sid1 st1] eqn:E.
    cbn [snd] in Hc, Hf.
    destruct (IH sid1 st1) as [Hc' (l & Hl & Hall)]. cbv zeta in Hc'.
    split.
    + rewrite Hc', Hc, <- app_assoc. f_equal.
      change (omap ?g (f :: rest)) with
        (match g f with Some y => y :: omap g rest | None => omap g rest end).
      by destruct (write_call read_raw_fif session_id reconstructed_path f).
    + assert (Hall' : Forall (λ name, ∃ n, (name, n) ∈ f :: rest ∧
                          is_Some (write_call read_raw_fif session_id
                                              reconstructed_path (name, n))) l).
      { eapply Forall_impl; [exact Hall|]. intros name (n & Hin & Hs).
        exists n. split; [by right | done]. }
      destruct Hf as [Hf | [Hf Hs]].
      * exists l. by rewrite Hl, Hf.
      * exists (fst f :: l). rewrite Hl, Hf, <- app_assoc. split; [done|].
        constructor; [|done]. destruct f as [name n]. exists n.
        split; [by left | done].
Qed.

Lemma convert_keeps_loop_state (session_id reconstructed_path : string)
    (meg_files : list (string * node)) (subject_id : string) (st : state) :
  let st1 := snd (foldl (convert_file read_raw_fif write_raw_bids session_id
                                      reconstructed_path)
                        (subject_id, st) meg_files) in
  let st2 := snd (convert read_raw_fif write_raw_bids true session_id
                          reconstructed_path meg_files subject_id st) in
  calls st2 = calls st1 ∧ failed_bids_files st2 = failed_bids_files st1 ∧
  fs st2 = fs st1.
Proof.
  cbv zeta. unfold convert. destruct (foldl _ _ _) as [sid st']. cbn [snd].
  destruct (failed_bids_files st') eqn:E; [done|].
  unfold say. cbn [snd calls failed_bids_files fs]. by rewrite ?E.
Qed.


End SessionSteps.

(** ** Moving the converted files up *)

Section Relocate.
Import ReconstructMEG.










Lemma relocate_calls (d : string) (st : state) :
  calls (state_of (relocate d st)) = calls st ∧
  failed_bids_files (state_of (relocate d st)) = failed_bids_files st.
Proof.
  unfold relocate. destruct (fs st !! path_join d "meg") as [[data|]|]; try done.
  by destruct (foldl _ _ _).
Qed.


End Relocate.

(** ** A run without conversion, and runs that end at once *)

Section WholeRun.
Import ReconstructMEG.

Context (find_spec pip_install : string → bool)
        (read_raw_fif : string → node → bool)
        (write_raw_bids : string → node → BIDSPath → gmap string fnode →
                          gmap string fnode * bool)
        (extract_subject_info : list string → gmap string fnode →
                                gmap string fnode * bool).

Lemma update_participants_calls
    (project_name reconstructed_path subject_id session_id : string) (st : state) :
  calls (update_participants extract_subject_info project_name reconstructed_path
                             subject_id session_id st) =
  calls st ++ [RunExtract (extract_cmd project_name subject_id session_id
                             (path_join reconstructed_path "participants.tsv"))].
Proof.
  unfold update_participants.
  destruct (fs st !! path_join reconstructed_path "participants.tsv");
    cbn [say called with_fs calls fs];
    destruct (extract_subject_info _ _) as [t' [|]]; reflexivity.
Qed.




(** X17.  With fewer than two arguments the script prints its usage and
    exits with status 1; with a subject path that is not a directory it
    reports that and exits with status 0.  In both cases the state changes
    by the message alone: the project tree is left as it is and no external
    call is made. *)
Theorem main_ends_at_once (argv : list string) (subject : string)
    (subject_dir : option node) (st : state) :
  ((length argv < 3)%nat →
   main find_spec pip_install read_raw_fif write_raw_bids extract_subject_info
        argv subject subject_dir st = (say Usage st, Exited 1)) ∧
  ((3 ≤ length argv)%nat → (∀ entries, subject_dir ≠ Some (Dir entries)) →
   main find_spec pip_install read_raw_fif write_raw_bids extract_subject_info
        argv subject subject_dir st = (say NotADirectory st, Exited 0)).
Proof.
  split.
  - intros H. destruct argv as [|a [|b [|c rest]]]; simpl in H; try done. lia.
  - intros H Hd. destruct argv as [|a [|b [|c rest]]]; simpl in H; try lia.
    unfold main. destruct subject_dir as [[data|entries]|]; try done.
    by destruct (Hd entries).
Qed.

End WholeRun.



Lemma main_ends_at_once_witness :
  ReconstructMEG.main Examples.installed Examples.installed Examples.loads_all
    Examples.writer_ok Examples.extractor_ok ["reconstruct_MEG.py"; "/src/sub-XYZ"]
    "sub-XYZ" None Examples.st0 =
    (ReconstructMEG.say ReconstructMEG.Usage Examples.st0, ReconstructMEG.Exited 1) ∧
  ReconstructMEG.main Examples.installed Examples.installed Examples.loads_all
    Examples.writer_ok Examples.extractor_ok Examples.argv_plain
    "sub-XYZ" (Some (ReconstructMEG.File "not a folder")) Examples.st0 =
    (ReconstructMEG.say ReconstructMEG.NotADirectory Examples.st0,
     ReconstructMEG.Exited 0).
Proof.
  split.
  - apply (proj1 (main_ends_at_once Examples.installed Examples.installed
                    Examples.loads_all Examples.writer_ok Examples.extractor_ok
                    ["reconstruct_MEG.py"; "/src/sub-XYZ"] "sub-XYZ" None Examples.st0)).
    simpl. lia.
  - apply (proj2 (main_ends_at_once Examples.installed Examples.installed
                    Examples.loads_all Examples.writer_ok Examples.extractor_ok
                    Examples.argv_plain "sub-XYZ"
                    (Some (ReconstructMEG.File "not a folder")) Examples.st0)).
    + simpl. lia.
    + discriminate.
Defined.

(** ** Compressed recordings *)

Section Compressed.
Import ReconstructMEG.

Lemma rfind_c_Some (c : ascii) (s : string) (i : nat) :
  rfind_c c s = Some i →
  ∃ a b, s = a +:+ String c b ∧ String.length a = i ∧ rfind_c c b = None.
Proof.
  revert i. induction s as [|d s IH]; intros i; [done|]. simpl.
  destruct (rfind_c c s) as [j|] eqn:E.
  - intros [= <-]. destruct (IH j eq_refl) as (a & b & -> & <- & Hb).
    by exists (String d a), b.
  - destruct (Ascii.eqb_spec d c) as [->|_]; [|done].
    intros [= <-]. by exists "", s.
Qed.

Lemma rfind_c_map (f : ascii → ascii) (c : ascii) (s : string) :
  (∀ x, Ascii.eqb (f x) c = Ascii.eqb x c) →
  rfind_c c (map_str f s) = rfind_c c s.
Proof.
  intros H. induction s as [|d s IH]; [done|]. simpl. by rewrite IH, H.
Qed.

Lemma eqb_lower_dot (c : ascii) : Ascii.eqb (lower_c c) "." = Ascii.eqb c ".".
Proof. destruct c as [[] [] [] [] [] [] [] []]; reflexivity. Qed.

(** The suffix of a name is empty or holds exactly one dot, its first
    character. *)
Lemma suffix_one_dot (name : string) :
  suffix name = "" ∨ ∃ t, suffix name = String "." t ∧ rfind_c "." t = None.
Proof.
  unfold suffix. destruct (rfind_c "." name) as [i|] eqn:E; [|by left].
  destruct (_ && _); [|by left]. right.
  apply rfind_c_Some in E as (a & b & -> & <- & Hb).
  exists b. by rewrite drop_str_app.
Qed.

(** X18.  The entry ".fif.gz" of the list of line 84 never applies, since
    the suffix of a name holds one dot: the pre-check looks at the files
    whose last suffix is ".fif" and at no other.  A compressed recording
    named *.fif.gz is therefore never checked and never taken by the
    conversion loop, and yet the copy step copies it like any other file. *)
Theorem compressed_recordings_are_not_checked :
  (∀ name, String.eqb (lower (suffix name)) ".fif.gz" = false) ∧
  (∀ name n,
      is_checked_file name n =
      is_file n && String.eqb (lower (suffix name)) ".fif") ∧
  (∀ base n, is_checked_file (base +:+ ".fif.gz") n = false) ∧
  (∀ base n, glob_fif [(base +:+ ".fif.gz", n)] = []) ∧
  (∀ dir base data t,
      t !! path_join dir (base +:+ ".fif.gz") = None →
      copy_files dir [(base +:+ ".fif.gz", File data)] t
        !! path_join dir (base +:+ ".fif.gz") = Some (FFile data)).
Proof.
  assert (Hdead : ∀ name, String.eqb (lower (suffix name)) ".fif.gz" = false).
  { intros name. apply String.eqb_neq. intros H.
    destruct (suffix_one_dot name) as [E | (t & E & Ht)]; rewrite E in H; [done|].
    unfold lower in H. simpl in H. injection H as H.
    assert (Hl : rfind_c "." (map_str lower_c t) = None).
    { rewrite rfind_c_map; [done | apply eqb_lower_dot]. }
    by rewrite H in Hl. }
  assert (Hgz : ∀ base, suffix (base +:+ ".fif.gz") = ".gz").
  { intros base. unfold suffix.
    change (base +:+ ".fif.gz") with (base +:+ (".fif" +:+ String "." "gz")).
    rewrite <- app_assoc_str, (rfind_c_last "." (base +:+ ".fif") "gz" eq_refl).
    assert ((0 <? String.length (base +:+ ".fif"))%nat &&
            (String.length (base +:+ ".fif") <?
             String.length ((base +:+ ".fif") +:+ String "." "gz") - 1)%nat = true) as ->.
    { rewrite !length_app_str. simpl. apply andb_true_iff.
      split; apply Nat.ltb_lt; lia. }
    apply drop_str_app. }
  split; [exact Hdead|]. split; [|split; [|split]].
  - intros name n. unfold is_checked_file. by rewrite Hdead, orb_false_r.
  - intros base n. unfold is_checked_file. rewrite Hgz. apply andb_false_r.
  - intros base n. unfold glob_fif. cbn [List.filter fst].
    assert (endswith ".fif" (base +:+ ".fif.gz") = false) as ->; [|done].
    assert (Hs : base +:+ ".fif.gz" = (base +:+ ".fi") +:+ "f.gz")
      by (by rewrite app_assoc_str).
    assert (Hd : drop_str (String.length (base +:+ ".fif.gz") - String.length ".fif")
                          (base +:+ ".fif.gz") = "f.gz").
    { replace (String.length (base +:+ ".fif.gz") - String.length ".fif")%nat
        with (String.length (base +:+ ".fi"))
        by (rewrite !length_app_str; simpl; lia).
      rewrite Hs. apply drop_str_app. }
    unfold endswith. rewrite Hd. apply andb_false_r.
  - intros dir base data t Ht. unfold copy_files. cbn [foldl copy_item].
    by rewrite Ht, lookup_insert_eq.
Qed.

End Compressed.

Lemma compressed_recordings_are_not_checked_witness :
  ReconstructMEG.copy_files "/raw/sub-X/ses-1"
    [("sub-other_rest_raw" +:+ ".fif.gz", ReconstructMEG.File "d")] ∅
    !! ReconstructMEG.path_join "/raw/sub-X/ses-1" ("sub-other_rest_raw" +:+ ".fif.gz")
  = Some (ReconstructMEG.FFile "d").
Proof.
  apply (proj2 (proj2 (proj2 (proj2 compressed_recordings_are_not_checked)))
           "/raw/sub-X/ses-1" "sub-other_rest_raw" "d" ∅).
  reflexivity.
Defined.

(** ** A run with conversion *)

Section RunWithBids.
Import ReconstructMEG.

Context (find_spec pip_install : string → bool)
        (read_raw_fif : string → node → bool)
        (write_raw_bids : string → node → BIDSPath → gmap string fnode →
                          gmap string fnode * bool)
        (extract_subject_info : list string → gmap string fnode →
                                gmap string fnode * bool).

Lemma write_calls_no_pip (session_id reconstructed_path : string)
    (meg_files : list (string * node)) :
  Forall (λ c, is_pip c = false)
         (omap (write_call read_raw_fif session_id reconstructed_path) meg_files).
Proof.
  induction meg_files as [|f rest IH]; [constructor|].
  change (omap ?g (f :: rest)) with
    (match g f with Some y => y :: omap g rest | None => omap g rest end).
  unfold write_call at 1. destruct (read_raw_fif f.1 f.2); [|done].
  destruct (parse_filename f.1); [|done]. by constructor.
Qed.

Lemma process_entry_no_pip (project_name subject_dir_name : string)
    (do_bids : bool) (reconstructed_path raw_path : string)
    (e : string * node) (st : state) :
  ∃ l, calls (state_of (process_entry read_raw_fif write_raw_bids
                          extract_subject_info project_name subject_dir_name
                          do_bids reconstructed_path raw_path e st)) =
       calls st ++ l ∧ Forall (λ c, is_pip c = false) l.
Proof.
  destruct e as [name [data|items]];
    [exists []; by rewrite List.app_nil_r|].
  unfold process_entry.
  destruct (glob_fif items) as [|f fl] eqn:Eg;
    [exists []; cbn; by rewrite List.app_nil_r|].
  cbn [say fs]. destruct (mkdir_p _ _) as [fs1|];
    [|exists []; cbn; by rewrite List.app_nil_r].
  match goal with
  | |- context [convert _ _ _ ?ses ?rp ?files ?sid ?s] =>
      assert (Hc : ∃ l, calls (snd (convert read_raw_fif write_raw_bids do_bids
                                            ses rp files sid s)) = calls st ++ l ∧
                        Forall (λ c, is_pip c = false) l);
        [|destruct (convert read_raw_fif write_raw_bids do_bids ses rp files sid s)
            as [sid2 st2]]
  end.
  { destruct do_bids; [|exists []; cbn; by rewrite List.app_nil_r].
    match goal with
    | |- context [convert _ _ _ ?ses ?rp ?files ?sid ?s] =>
        destruct (convert_keeps_loop_state read_raw_fif write_raw_bids
                    ses rp files sid s) as (Hk & _ & _);
          destruct (convert_loop_calls read_raw_fif write_raw_bids
                      ses rp files sid s) as [Hl _]
    end.
    cbv zeta in Hk, Hl. eexists. split; [rewrite Hk, Hl; reflexivity|].
    apply write_calls_no_pip. }
  destruct Hc as (l & Hl & Hall). cbn [snd] in Hl.
  match goal with
  | |- context [relocate ?d ?s] =>
      pose proof (relocate_calls d s) as [Hr _]; destruct (relocate d s) as [st3|st3]
  end; cbn [state_of bind] in *.
  - eexists. rewrite update_participants_calls, Hr, Hl, <- app_assoc.
    split; [reflexivity|]. apply Forall_app. split; [done | by constructor].
  - exists l. by rewrite Hr.
Qed.

Lemma process_entries_no_pip (project_name subject_dir_name : string)
    (do_bids : bool) (reconstructed_path raw_path : string)
    (entries : list (string * node)) (st : state) :
  ∃ l, calls (state_of (process_entries read_raw_fif write_raw_bids
                          extract_subject_info project_name subject_dir_name
                          do_bids reconstructed_path raw_path entries st)) =
       calls st ++ l ∧ Forall (λ c, is_pip c = false) l.
Proof.
  revert st. induction entries as [|e rest IH]; intros st.
  - exists []. by rewrite List.app_nil_r.
  - cbn [process_entries].
    destruct (process_entry_no_pip project_name subject_dir_name do_bids
                reconstructed_path raw_path e st) as (l1 & H1 & Hall1).
    destruct (process_entry _ _ _ _ _ _ _ _ _ _) as [st1|st1]; cbn [bind state_of] in *.
    + destruct (IH st1) as (l2 & H2 & Hall2). exists (l1 ++ l2).
      rewrite H2, H1, <- app_assoc. split; [done|]. by apply Forall_app.
    + by exists l1.
Qed.

(** X19.  In a run whose pre-check passes, the package installer is called
    only with the --bids flag (in whatever case) and only when mne_bids is
    not found, once, and before every other call.  When the installation
    fails the run ends there with an uncaught exception, before any
    directory is created. *)
Theorem pip_install_only_first
    (prog dir_arg project_name : string) (rest : list string)
    (subject : string) (entries : list (string * node)) (st : state) :
  fst (precheck subject entries) = false →
  ∃ l,
    calls (fst (main find_spec pip_install read_raw_fif write_raw_bids
                     extract_subject_info (prog :: dir_arg :: project_name :: rest)
                     subject (Some (Dir entries)) st)) =
      calls st ++
      (if bids_flag rest && negb (find_spec "mne_bids")
       then [PipInstall "mne_bids"] else []) ++ l ∧
    Forall (λ c, is_pip c = false) l ∧
    (bids_flag rest = true → find_spec "mne_bids" = false →
     pip_install "mne_bids" = false →
     l = [] ∧
     snd (main find_spec pip_install read_raw_fif write_raw_bids
               extract_subject_info (prog :: dir_arg :: project_name :: rest)
               subject (Some (Dir entries)) st) = Uncaught ∧
     fs (fst (main find_spec pip_install read_raw_fif write_raw_bids
                   extract_subject_info (prog :: dir_arg :: project_name :: rest)
                   subject (Some (Dir entries)) st)) = fs st).
Proof.
  intros Hpass. unfold main. fold (bids_flag rest). rewrite Hpass.
  set (st1 := says _ _).
  assert (Hst1 : calls st1 = calls st ∧ fs st1 = fs st) by done.
  destruct Hst1 as [Hc1 Hf1].
  unfold process, install_if_missing.
  set (rp := path_join _ "reconstructed"). set (raw := path_join _ "raw").
  assert (Hrun : ∀ s0,
    ∃ l, calls (fst (match
                  match mkdir_p rp (fs s0) with
                  | Some fs1 =>
                      match mkdir_p raw fs1 with
                      | Some fs2 =>
                          bind (process_entries read_raw_fif write_raw_bids
                                  extract_subject_info project_name subject
                                  (bids_flag rest) rp raw entries (with_fs fs2 s0))
                               (λ s, Ok (say AllProcessed s))
                      | None => Raise (with_fs fs1 s0)
                      end
                  | None => Raise s0
                  end
                with
                | Ok s => (s, Completed)
                | Raise s => (s, Uncaught)
                end)) = calls s0 ++ l ∧ Forall (λ c, is_pip c = false) l).
  { intros s0. destruct (mkdir_p rp (fs s0)) as [fs1|];
      [|exists []; by rewrite List.app_nil_r].
    destruct (mkdir_p raw fs1) as [fs2|];
      [|exists []; cbn; by rewrite List.app_nil_r].
    destruct (process_entries_no_pip project_name subject (bids_flag rest) rp raw
                entries (with_fs fs2 s0)) as (l & Hl & Hall).
    destruct (process_entries _ _ _ _ _ _ _ _ _ _) as [s2|s2];
      cbn [bind fst snd state_of] in *; exists l; (split; [|done]);
      unfold say; cbn [fst calls]; by rewrite Hl. }
  destruct (bids_flag rest) eqn:Eb; cbn [andb].
  - destruct (find_spec "mne_bids") eqn:Ef; cbn [negb bind].
    + destruct (Hrun st1) as (l & Hl & Hall). exists l.
      rewrite Hl, Hc1. by repeat split.
    + destruct (pip_install "mne_bids") eqn:Ep; cbn [bind].
      * destruct (Hrun (called (PipInstall "mne_bids") st1)) as (l & Hl & Hall).
        exists l. rewrite Hl. cbn [called calls]. rewrite Hc1, <- app_assoc.
        by repeat split.
      * exists []. cbn [fst snd called calls fs]. by rewrite Hc1, Hf1.
  - cbn [bind]. destruct (Hrun st1) as (l & Hl & Hall). exists l.
    rewrite Hl, Hc1. by repeat split.
Qed.

(** X20.  In a session processed with conversion enabled in which no
    recording both loads and has a name matching the pattern, the
    relocate-output step and the participants-update step work on the
    subject ID that line 135 derives from the directory name, the one the
    raw copy used. *)
Theorem conversion_steps_keep_directory_subject
    (project_name subject_dir_name reconstructed_path raw_path session : string)
    (items : list (string * node)) (st : state) (fs1 : gmap string fnode) :
  glob_fif items ≠ [] →
  mkdir_p (raw_dir raw_path (copy_subject_id subject_dir_name) ("20" +:+ session))
          (fs st) = Some fs1 →
  last_parsed_subject read_raw_fif (glob_fif items) = None →
  process_entry read_raw_fif write_raw_bids extract_subject_info
                project_name subject_dir_name true reconstructed_path raw_path
                (session, Dir items) st =
    bind (relocate (bids_dir reconstructed_path (copy_subject_id subject_dir_name)
                      ("20" +:+ session))
            (snd (convert read_raw_fif write_raw_bids true ("20" +:+ session)
                    reconstructed_path (glob_fif items)
                    (copy_subject_id subject_dir_name)
                    (after_copy raw_path subject_dir_name session items fs1 st))))
         (λ st3, Ok (update_participants extract_subject_info project_name
                       reconstructed_path (copy_subject_id subject_dir_name)
                       ("20" +:+ session) st3)).
Proof.
  intros Hglob Hmk Hlast.
  unfold process_entry. destruct (glob_fif items) as [|f fl] eqn:Eg; [done|].
  cbn [say fs]. rewrite Hmk.
  fold (after_copy raw_path subject_dir_name session items fs1 st).
  pose proof (convert_subject read_raw_fif write_raw_bids ("20" +:+ session)
                reconstructed_path (f :: fl)
                (copy_subject_id subject_dir_name)
                (after_copy raw_path subject_dir_name session items fs1 st)) as Hc.
  rewrite Hlast in Hc. cbn [default] in Hc.
  destruct (convert _ _ _ _ _ _ _ _) as [sid st2] eqn:Ec.
  simpl in Hc. by subst sid.
Qed.

End RunWithBids.

Lemma pip_install_only_first_witness :
  (∃ l,
      ReconstructMEG.calls
        (fst (ReconstructMEG.main Examples.installed Examples.installed
                Examples.loads_all Examples.writer_ok Examples.extractor_ok
                Examples.argv_bids "sub-XYZ"
                (Some (ReconstructMEG.Dir Examples.session_xyz1)) Examples.st0)) =
        [] ++ [] ++ l ∧
      Forall (λ c, ReconstructMEG.is_pip c = false) l) ∧
  snd (ReconstructMEG.main Examples.not_installed Examples.not_installed
         Examples.loads_all Examples.writer_ok Examples.extractor_ok
         Examples.argv_bids "sub-XYZ"
         (Some (ReconstructMEG.Dir Examples.session_xyz1)) Examples.st0) =
    ReconstructMEG.Uncaught.
Proof.
  split.
  - destruct (pip_install_only_first Examples.installed Examples.installed
                Examples.loads_all Examples.writer_ok Examples.extractor_ok
                "reconstruct_MEG.py" "/data/storage/sourcedata/P/meg/sub-XYZ" "P"
                ["--bids"] "sub-XYZ" Examples.session_xyz1 Examples.st0 eq_refl)
      as (l & H1 & H2 & _).
    exists l. split; [exact H1 | exact H2].
  - destruct (pip_install_only_first Examples.not_installed Examples.not_installed
                Examples.loads_all Examples.writer_ok Examples.extractor_ok
                "reconstruct_MEG.py" "/data/storage/sourcedata/P/meg/sub-XYZ" "P"
                ["--bids"] "sub-XYZ" Examples.session_xyz1 Examples.st0 eq_refl)
      as (l & _ & _ & H3).
    apply H3; reflexivity.
Defined.

Lemma conversion_steps_keep_directory_subject_witness :
  ReconstructMEG.process_entry Examples.loads_none Examples.writer_ok
    Examples.extractor_ok "P" "sub-XYZ" true Examples.reconstructed_P Examples.raw_P
    ("2401", ReconstructMEG.Dir [("sub-xyz1_task-raw.fif", ReconstructMEG.File "raw data")])
    Examples.st0 =
  ReconstructMEG.bind
    (ReconstructMEG.relocate
       (ReconstructMEG.bids_dir Examples.reconstructed_P
          (ReconstructMEG.copy_subject_id "sub-XYZ") ("20" +:+ "2401"))
       (snd (ReconstructMEG.convert Examples.loads_none Examples.writer_ok true
               ("20" +:+ "2401") Examples.reconstructed_P
               (ReconstructMEG.glob_fif
                  [("sub-xyz1_task-raw.fif", ReconstructMEG.File "raw data")])
               (ReconstructMEG.copy_subject_id "sub-XYZ")
               (ReconstructMEG.after_copy Examples.raw_P "sub-XYZ" "2401"
                  [("sub-xyz1_task-raw.fif", ReconstructMEG.File "raw data")]
                  (<[ReconstructMEG.raw_dir Examples.raw_P "XYZ" "202401" :=
                       ReconstructMEG.FDir]> ∅)
                  Examples.st0))))
    (λ st3, ReconstructMEG.Ok
              (ReconstructMEG.update_participants Examples.extractor_ok "P"
                 Examples.reconstructed_P (ReconstructMEG.copy_subject_id "sub-XYZ")
                 ("20" +:+ "2401") st3)).
Proof.
  apply (conversion_steps_keep_directory_subject Examples.loads_none
           Examples.writer_ok Examples.extractor_ok "P" "sub-XYZ"
           Examples.reconstructed_P Examples.raw_P "2401"
           [("sub-xyz1_task-raw.fif", ReconstructMEG.File "raw data")]
           Examples.st0).
  - vm_compute. discriminate.
  - reflexivity.
  - vm_compute. reflexivity.
Defined.

(** ** Sessions that are passed over *)

Section PassedOver.
Import ReconstructMEG.

Context (read_raw_fif : string → node → bool)
        (write_raw_bids : string → node → BIDSPath → gmap string fnode →
                          gmap string fnode * bool)
        (extract_subject_info : list string → gmap string fnode →
                                gmap string fnode * bool).

Lemma glob_fif_empty (items : list (string * node)) :
  Forall (λ e, endswith ".fif" (fst e) = false) items → glob_fif items = [].
Proof.
  unfold glob_fif. induction 1 as [|e rest He _ IH]; [done|].
  cbn [List.filter]. by rewrite He.
Qed.

(** X22.  A session folder none of whose entries has a name ending in
    ".fif", in just this case, is passed over whether conversion is enabled
    or not: nothing is created or copied, even if the folder holds other
    files, and no participants update is made.  The glob of line 129 tells
    the case of the extension while the check of line 84 does not: a file
    named *.FIF is checked by the pre-check and yet does not make its
    session count as one with recordings. *)
Theorem session_without_fif_is_passed_over
    (project_name subject_dir_name : string) (do_bids : bool)
    (reconstructed_path raw_path session : string)
    (items : list (string * node)) (st : state) :
  (Forall (λ e, endswith ".fif" (fst e) = false) items →
   process_entry read_raw_fif write_raw_bids extract_subject_info
                 project_name subject_dir_name do_bids reconstructed_path raw_path
                 (session, Dir items) st =
     Ok (say (NoFifFiles session ("20" +:+ session))
             (say (FoundSession ("20" +:+ session)) st))) ∧
  (∀ base data,
      base ≠ "" →
      is_checked_file (base +:+ ".FIF") (File data) = true ∧
      endswith ".fif" (base +:+ ".FIF") = false).
Proof.
  split.
  - intros H. unfold process_entry. by rewrite (glob_fif_empty items H).
  - intros base data Hne. split.
    + unfold is_checked_file, suffix.
      change ".FIF" with (String "." "FIF").
      rewrite (rfind_c_last "." base "FIF" eq_refl).
      assert ((0 <? String.length base)%nat &&
              (String.length base <?
               String.length (base +:+ String "." "FIF") - 1)%nat = true) as ->.
      { rewrite length_app_str. apply andb_true_iff. split; apply Nat.ltb_lt.
        - destruct base; [done | simpl; lia].
        - simpl. lia. }
      by rewrite drop_str_app.
    + unfold endswith.
      replace (String.length (base +:+ ".FIF") - String.length ".fif")%nat
        with (String.length base) by (rewrite length_app_str; simpl; lia).
      rewrite drop_str_app. apply andb_false_r.
Qed.

End PassedOver.

Lemma session_without_fif_is_passed_over_witness :
  ReconstructMEG.process_entry Examples.loads_all Examples.writer_ok
    Examples.extractor_ok "P" "sub-XYZ" true Examples.reconstructed_P Examples.raw_P
    ("2401", ReconstructMEG.Dir [("sub-xyz_rest_raw.FIF", ReconstructMEG.File "d")])
    Examples.st0 =
    ReconstructMEG.Ok
      (ReconstructMEG.say
         (ReconstructMEG.NoFifFiles "2401" ("20" +:+ "2401"))
         (ReconstructMEG.say (ReconstructMEG.FoundSession ("20" +:+ "2401"))
            Examples.st0)) ∧
  ReconstructMEG.is_checked_file ("sub-xyz_rest_raw" +:+ ".FIF")
    (ReconstructMEG.File "d") = true.
Proof.
  split.
  - apply (proj1 (session_without_fif_is_passed_over Examples.loads_all
                    Examples.writer_ok Examples.extractor_ok "P" "sub-XYZ" true
                    Examples.reconstructed_P Examples.raw_P "2401"
                    [("sub-xyz_rest_raw.FIF", ReconstructMEG.File "d")]
                    Examples.st0)).
    repeat constructor.
  - apply (proj2 (session_without_fif_is_passed_over Examples.loads_all
                    Examples.writer_ok Examples.extractor_ok "P" "sub-XYZ" true
                    Examples.reconstructed_P Examples.raw_P "2401" []
                    Examples.st0) "sub-xyz_rest_raw" "d").
    discriminate.
Defined.
